(** * ts-stick: on-screen controls (button, d-pad, joystick, retractable slider)

    A shallow embedding of the pointer handlers of the four controllers.

    Conventions of the model.
    - A JavaScript [number] is read as a real number: the arithmetic is the
      exact one, and the results that only exist in floating point (NaN, the
      infinities, rounding error) are outside the model.
    - A handler is a function from the controller's fields (and what the host
      hands to it: the event, the rectangle the DOM would report now) to the
      new fields and the list of callbacks it invoked, in order.
    - Console output and the style writes that no handler reads back are left
      out; the opacity and the thumb transform are kept.
    - A host-supplied function is known by a name; the logger a constructor
      installs when the host supplies nothing is a value of its own. *)

From Stdlib Require Import Floats.
From Stdlib Require Import Reals Lra Psatz ZArith List String Bool.
Import ListNotations.

Open Scope R_scope.

(** ** What the host supplies *)

(** A function value: one the host passed in the options, or the logging
    closure the constructor builds itself. *)
Inductive callback : Type :=
| HostFn (name : string)
| DefaultLogger.

Definition callback_eqb (a b : callback) : bool :=
  match a, b with
  | HostFn x, HostFn y => String.eqb x y
  | DefaultLogger, DefaultLogger => true
  | _, _ => false
  end.

(** [a || b] on an optional option field. *)
Definition orDefault {A : Type} (o : option A) (d : A) : A :=
  match o with
  | Some a => a
  | None => d
  end.

(** [n || d] on an optional number: [undefined] and [0] are both falsy. *)
Definition numberOr (o : option R) (d : R) : R :=
  match o with
  | Some r => if Req_dec_T r 0 then d else r
  | None => d
  end.

(** The rectangle [getBoundingClientRect] returns. *)
Record DOMRect : Type := mkRect {
  rect_left : R;
  rect_top : R;
  rect_width : R;
  rect_height : R
}.

(** The part of a pointer event (or of a touch point) the handlers read. *)
Record PointerEvent : Type := mkPointer {
  pointerId : Z;
  clientX : R;
  clientY : R
}.

(** ** Comparisons on numbers, as booleans *)

(** [x < y], [x <= y] and [x === y] on numbers. *)
Definition Rltb (x y : R) : bool := if Rlt_dec x y then true else false.
Definition Rleb (x y : R) : bool := if Rle_dec x y then true else false.
Definition Reqb (x y : R) : bool := if Req_dec_T x y then true else false.

(** ** Math *)

(** [Math.round]: the nearest integer, a tie going up. *)
Definition Math_round (x : R) : R := IZR (Int_part (x + / 2)).

(** [Number(x.toFixed(2))]: the nearest multiple of 0.01, a tie going away
    from zero ([toFixed] rounds the magnitude and puts the sign back). *)
Definition toFixed2 (x : R) : R :=
  if Rle_dec 0 x
  then IZR (Int_part (x * 100 + / 2)) / 100
  else - (IZR (Int_part (- x * 100 + / 2)) / 100).

(** [Math.hypot] on two arguments. *)
Definition Math_hypot (x y : R) : R := sqrt (x * x + y * y).

(** [Math.atan2 y x], in radians, in (-PI, PI]. *)
Definition Math_atan2 (y x : R) : R :=
  if Rlt_dec 0 x then atan (y / x)
  else if Rlt_dec x 0 then
         if Rle_dec 0 y then atan (y / x) + PI else atan (y / x) - PI
       else if Rlt_dec 0 y then PI / 2
            else if Rlt_dec y 0 then - (PI / 2)
                 else 0.

(** The reverse rotation both the d-pad and the joystick apply to a
    displacement when the control is drawn rotated by [rotate] degrees. *)
Definition rotateBack (rotate x y : R) : R * R :=
  let angle := (- rotate * PI) / 180 in
  (x * cos angle - y * sin angle, x * sin angle + y * cos angle).

(** ** Button.ts (the first [ButtonController] of unnamed/part_001) *)

Module Button.

Record ButtonOptions : Type := mkOptions {
  opt_onPressCallback : option callback;
  opt_onReleaseCallback : option callback
}.

Record ButtonController : Type := mkButton {
  onPressCallback : callback;
  onReleaseCallback : callback;
  opacity : string;
  isPressed : bool
}.

(** What a handler of the button does to the host. *)
Inductive effect : Type :=
| Press (f : callback)      (* onPressCallback.call(this) *)
| Release (f : callback)    (* onReleaseCallback.call(this) *)
| PreventDefault.

(** The nodes of the page a pointer can land on: the container handed to
    the constructor, the button's own element [base] (appended to the
    container by [render]), the icon inside [base], any other node inside
    the container, and the nodes outside of it. *)
Inductive node : Type :=
| Container
| Base
| Icon
| Inside (n : nat)
| Outside (n : nat).

Definition node_eqb (a b : node) : bool :=
  match a, b with
  | Container, Container | Base, Base | Icon, Icon => true
  | Inside n, Inside m | Outside n, Outside m => Nat.eqb n m
  | _, _ => false
  end.

(** [contains el target]: the target is [el] or a descendant of it, so an
    event on the target reaches the listeners of [el] when it bubbles. *)
Definition contains (el target : node) : bool :=
  match el, target with
  | Container, (Container | Base | Icon | Inside _) => true
  | Base, (Base | Icon) => true
  | _, _ => node_eqb el target
  end.

Inductive handler : Type :=
| OnButtonUp
| OnButtonDown
| DoPreventDefault.

Record listener : Type := mkListener {
  on_node : node;
  on_event : string;
  run : handler
}.

Definition constructor (options : ButtonOptions) : ButtonController :=
  {| onPressCallback := orDefault (opt_onPressCallback options) DefaultLogger;
     onReleaseCallback := orDefault (opt_onReleaseCallback options) DefaultLogger;
     opacity := "0.6";
     isPressed := false |}.

(** The listeners [init] attaches (lines 216-233), in the order it attaches
    them; all of them on the container. *)
Definition init : list listener :=
  [ mkListener Container "pointerup" OnButtonUp;
    mkListener Container "pointerdown" OnButtonDown ]
  ++ map (fun e => mkListener Container e DoPreventDefault)
       [ "touchstart"; "touchmove"; "touchend"; "touchcancel";
         "selectstart"; "contextmenu" ]%string.

(** [onButtonUp], lines 293-303. *)
Definition onButtonUp (b : ButtonController) : ButtonController * list effect :=
  if negb (isPressed b) then (b, [])
  else ({| onPressCallback := onPressCallback b;
           onReleaseCallback := onReleaseCallback b;
           opacity := "0.6";
           isPressed := false |},
        [Release (onReleaseCallback b)]).

(** [onButtonDown], lines 310-318. *)
Definition onButtonDown (b : ButtonController) : ButtonController * list effect :=
  if isPressed b then (b, [])
  else ({| onPressCallback := onPressCallback b;
           onReleaseCallback := onReleaseCallback b;
           opacity := "0.8";
           isPressed := true |},
        [Press (onPressCallback b)]).

Definition runHandler (h : handler) (b : ButtonController)
  : ButtonController * list effect :=
  match h with
  | OnButtonUp => onButtonUp b
  | OnButtonDown => onButtonDown b
  | DoPreventDefault => (b, [PreventDefault])
  end.

(** The browser delivers an event of type [ev] whose target is [target]:
    every listener for [ev] on the target or on an ancestor of it runs. *)
Fixpoint dispatch (ls : list listener) (ev : string) (target : node)
         (b : ButtonController) : ButtonController * list effect :=
  match ls with
  | [] => (b, [])
  | l :: rest =>
      if (String.eqb (on_event l) ev && contains (on_node l) target)%bool
      then let (b1, t1) := runHandler (run l) b in
           let (b2, t2) := dispatch rest ev target b1 in
           (b2, t1 ++ t2)
      else dispatch rest ev target b
  end.

(** A sequence of calls of the two handlers. *)
Inductive call : Type := Down | Up.

Fixpoint calls (cs : list call) (b : ButtonController)
  : ButtonController * list effect :=
  match cs with
  | [] => (b, [])
  | c :: rest =>
      let (b1, t1) := match c with
                      | Down => onButtonDown b
                      | Up => onButtonUp b
                      end in
      let (b2, t2) := calls rest b1 in
      (b2, t1 ++ t2)
  end.

Definition isPress (e : effect) : bool :=
  match e with Press _ => true | _ => false end.

(** How many times [onPress] fired in a trace. *)
Definition pressCount (t : list effect) : nat :=
  List.length (filter isPress t).

Definition isRelease (e : effect) : bool :=
  match e with Release _ => true | _ => false end.

(** A trace in which the two callbacks take turns, [onPress] being due next
    when [pressDue] holds. *)
Fixpoint alternates (pressDue : bool) (t : list effect) : bool :=
  match t with
  | [] => true
  | Press _ :: rest => pressDue && alternates false rest
  | Release _ :: rest => negb pressDue && alternates true rest
  | PreventDefault :: rest => alternates pressDue rest
  end.

(** A run of events, each with its type and its target, delivered in order
    to the listeners [init] attached. *)
Fixpoint dispatches (evs : list (string * node)) (b : ButtonController)
  : ButtonController * list effect :=
  match evs with
  | [] => (b, [])
  | (ev, target) :: rest =>
      let (b1, t1) := dispatch init ev target b in
      let (b2, t2) := dispatches rest b1 in
      (b2, t1 ++ t2)
  end.

(** What every run keeps true of a button built with the callbacks [p] and
    [r]: the callbacks stay, and the opacity tells whether it is held. *)
Definition settled (p r : callback) (b : ButtonController) : Prop :=
  onPressCallback b = p /\
  onReleaseCallback b = r /\
  opacity b = (if isPressed b then "0.8" else "0.6")%string.

End Button.

(** ** Dpad.ts *)

Module Dpad.

(** The [direction] union of string literals. *)
Inductive direction : Type :=
| Center | Up | Down | Left | Right
| UpRight | DownRight | UpLeft | DownLeft.

(** The string of the source each value stands for. *)
Definition direction_name (d : direction) : string :=
  match d with
  | Center => "center"
  | Up => "up"
  | Down => "down"
  | Left => "left"
  | Right => "right"
  | UpRight => "up-right"
  | DownRight => "down-right"
  | UpLeft => "up-left"
  | DownLeft => "down-left"
  end.

Definition direction_eqb (a b : direction) : bool :=
  String.eqb (direction_name a) (direction_name b).

(** The keys of [pathData], in the order of the object literal. *)
Definition pathData : list string := ["up"; "right"; "down"; "left"]%string.

(** [s.includes(sub)]. *)
Definition includes (s sub : string) : bool :=
  match String.index 0 sub s with
  | Some _ => true
  | None => false
  end.

Record DpadOptions : Type := mkOptions {
  opt_radius : option R;
  opt_centerRadiusThreshold : option R;
  opt_onPressCallback : option callback;
  opt_onReleaseCallback : option callback;
  opt_verboseLogging : option bool;
  opt_keyRepeat : option bool;
  opt_rotate : option R
}.

Record DpadController : Type := mkDpad {
  radius : R;
  centerThreshold : R;
  onPressCallback : callback;
  onReleaseCallback : callback;
  verboseLogging : bool;
  currentDirection : direction;
  pressedPaths : list string;   (* the paths filled with [colorPressed] *)
  opacity : string;
  pointerId_ : Z;
  baseRect : option DOMRect;
  inputRegisterDistance : R;
  isPressed : bool;
  keyRepeat : bool;
  rotate : R
}.

Inductive effect : Type :=
| Pressed (f : callback) (d : direction)    (* onPressCallback.call(this, d) *)
| Released (f : callback) (d : direction)   (* onReleaseCallback.call(this, d) *)
| PreventDefault
| SetPointerCapture (id : Z).

(** The argument of the handlers: a pointer event, or a touch event with its
    [touches] and [changedTouches] lists. *)
Inductive event : Type :=
| Pointer (e : PointerEvent)
| Touch (touches changedTouches : list PointerEvent).

(** The constructor, lines 181-222.  [onPressCallback] is taken from the
    options when it is there; [onReleaseCallback] is assigned the logging
    closure whatever the options hold. *)
Definition constructor (options : DpadOptions) : DpadController :=
  {| radius := numberOr (opt_radius options) 5;
     centerThreshold := orDefault (opt_centerRadiusThreshold options) 0.25;
     onPressCallback := orDefault (opt_onPressCallback options) DefaultLogger;
     onReleaseCallback := DefaultLogger;
     verboseLogging := orDefault (opt_verboseLogging options) false;
     currentDirection := Center;
     pressedPaths := [];
     opacity := "0.5";
     pointerId_ := (-1)%Z;
     baseRect := None;
     inputRegisterDistance := 0;
     isPressed := false;
     keyRepeat := orDefault (opt_keyRepeat options) false;
     rotate := orDefault (opt_rotate options) 0 |}.

Definition set_press (p : bool) (id : Z) (d : DpadController) : DpadController :=
  {| radius := radius d; centerThreshold := centerThreshold d;
     onPressCallback := onPressCallback d;
     onReleaseCallback := onReleaseCallback d;
     verboseLogging := verboseLogging d;
     currentDirection := currentDirection d;
     pressedPaths := pressedPaths d; opacity := opacity d;
     pointerId_ := id;
     baseRect := baseRect d;
     inputRegisterDistance := inputRegisterDistance d;
     isPressed := p;
     keyRepeat := keyRepeat d; rotate := rotate d |}.

Definition set_direction (dir : direction) (paths : list string)
           (d : DpadController) : DpadController :=
  {| radius := radius d; centerThreshold := centerThreshold d;
     onPressCallback := onPressCallback d;
     onReleaseCallback := onReleaseCallback d;
     verboseLogging := verboseLogging d;
     currentDirection := dir;
     pressedPaths := paths; opacity := opacity d;
     pointerId_ := pointerId_ d;
     baseRect := baseRect d;
     inputRegisterDistance := inputRegisterDistance d;
     isPressed := isPressed d;
     keyRepeat := keyRepeat d; rotate := rotate d |}.

(** [updateContainerRectangle], lines 343-350; [rect] is what
    [this.base.getBoundingClientRect()] returns now. *)
Definition updateContainerRectangle (rect : DOMRect) (d : DpadController)
  : DpadController :=
  {| radius := radius d; centerThreshold := centerThreshold d;
     onPressCallback := onPressCallback d;
     onReleaseCallback := onReleaseCallback d;
     verboseLogging := verboseLogging d;
     currentDirection := currentDirection d;
     pressedPaths := pressedPaths d; opacity := opacity d;
     pointerId_ := pointerId_ d;
     baseRect := Some rect;
     inputRegisterDistance :=
       (Rmin (rect_width rect) (rect_height rect) / 2) * centerThreshold d;
     isPressed := isPressed d;
     keyRepeat := keyRepeat d; rotate := rotate d |}.

(** The fills [updateDpadUI] leaves for the current direction. *)
Definition updateDpadUI (dir : direction) : list string :=
  filter (fun p => includes (direction_name dir) p) pathData.

Definition resetDpad (d : DpadController) : DpadController :=
  {| radius := radius d; centerThreshold := centerThreshold d;
     onPressCallback := onPressCallback d;
     onReleaseCallback := onReleaseCallback d;
     verboseLogging := verboseLogging d;
     currentDirection := currentDirection d;
     pressedPaths := []; opacity := "0.5";
     pointerId_ := pointerId_ d;
     baseRect := baseRect d;
     inputRegisterDistance := inputRegisterDistance d;
     isPressed := isPressed d;
     keyRepeat := keyRepeat d; rotate := rotate d |}.

(** The last step of [onDpadUp]: back to [center], telling the listener. *)
Definition releaseDirection (d : DpadController) : DpadController * list effect :=
  if negb (direction_eqb (currentDirection d) Center)
  then (set_direction Center (pressedPaths d) d,
        [Released (onReleaseCallback d) Center])
  else (d, []).

(** [onDpadUp], lines 397-419. *)
Definition onDpadUp (e : event) (d : DpadController)
  : DpadController * list effect :=
  let (d1, t1) :=
    match e with
    | Pointer p =>
        if Z.eqb (pointerId p) (pointerId_ d)
        then (resetDpad (set_press false (-1)%Z d), [PreventDefault])
        else (d, [])
    | Touch _ changed =>
        if (0 <? List.length changed)%nat
        then (resetDpad (set_press (isPressed d) (-1)%Z d), [PreventDefault])
        else (d, [])
    end in
  let (d2, t2) := releaseDirection d1 in
  (d2, t1 ++ t2).

(** The displacement of the pointer from the centre of the cached rectangle,
    turned back by the rotation of the control. *)
Definition displacement (rect : DOMRect) (rot : R) (e : PointerEvent) : R * R :=
  let baseCenterX := rect_left rect + rect_width rect / 2 in
  let baseCenterY := rect_top rect + rect_height rect / 2 in
  let x := clientX e - baseCenterX in
  let y := clientY e - baseCenterY in
  if negb (Reqb rot 0) then rotateBack rot x y else (x, y).

(** The angle of a displacement, in degrees, the screen's y axis pointing
    down. *)
Definition angleOf (xy : R * R) : R :=
  (Math_atan2 (- snd xy) (fst xy) * 180) / PI.

Definition centerDistanceOf (xy : R * R) : R :=
  sqrt (fst xy * fst xy + snd xy * snd xy).

(** The chain of comparisons that picks the direction, lines 502-513. *)
Definition findDirection (centerDistance registerDistance angle : R) : direction :=
  if Rltb registerDistance centerDistance then
    if (Rltb (-22.5) angle && Rleb angle 22.5)%bool then Right
    else if (Rltb 22.5 angle && Rleb angle 67.5)%bool then UpRight
    else if (Rltb 67.5 angle && Rleb angle 112.5)%bool then Up
    else if (Rltb 112.5 angle && Rleb angle 157.5)%bool then UpLeft
    else if (Rltb 157.5 angle || Rleb angle (-157.5))%bool then Left
    else if (Rltb (-157.5) angle && Rleb angle (-112.5))%bool then DownLeft
    else if (Rltb (-112.5) angle && Rleb angle (-67.5))%bool then Down
    else if (Rltb (-67.5) angle && Rleb angle (-22.5))%bool then DownRight
    else Center
  else Center.

(** [onDpadMove], lines 462-526.  [None] is the TypeError of reading [left]
    of an undefined [baseRect]. *)
Definition onDpadMove (e : PointerEvent) (d : DpadController)
  : option (DpadController * list effect) :=
  if negb (isPressed d) then Some (d, [])
  else
    match baseRect d with
    | None => None
    | Some rect =>
        let xy := displacement rect (rotate d) e in
        let angle := angleOf xy in
        let centerDistance := centerDistanceOf xy in
        let dir := findDirection centerDistance (inputRegisterDistance d) angle in
        if negb (direction_eqb (currentDirection d) dir)
        then Some (set_direction dir (updateDpadUI dir) d,
                   [Pressed (onPressCallback d) dir])
        else Some (d, [])
    end.

(** [onDpadDown], lines 429-452; [rect] is the rectangle the DOM reports at
    the time of the press. *)
Definition onDpadDown (rect : DOMRect) (e : event) (d : DpadController)
  : option (DpadController * list effect) :=
  match e with
  | Pointer p =>
      let d1 := updateContainerRectangle rect (set_press true (pointerId p) d) in
      match onDpadMove p d1 with
      | Some (d2, t) => Some (d2, SetPointerCapture (pointerId p) :: t)
      | None => None
      end
  | Touch (t0 :: _) _ =>
      let d1 := updateContainerRectangle rect (set_press true (pointerId t0) d) in
      onDpadMove t0 d1
  | Touch [] _ => Some (d, [])
  end.

(** What a press leaves in the fields the move handler reads. *)
(** What the browser hands to the listeners [init] attaches to [base]
    (lines 272-282): pointer-down, pointer-move and pointer-up go to the three
    handlers; touch-start and touch-end first prevent the default and then go
    to the press and the release handler.  A press comes with the rectangle
    the DOM reports at that time. *)
Inductive input : Type :=
| PointerDown (rect : DOMRect) (p : PointerEvent)
| PointerMove (p : PointerEvent)
| PointerUp (p : PointerEvent)
| TouchStart (rect : DOMRect) (touches changedTouches : list PointerEvent)
| TouchEnd (touches changedTouches : list PointerEvent).

Definition step (i : input) (d : DpadController)
  : option (DpadController * list effect) :=
  match i with
  | PointerDown rect p => onDpadDown rect (Pointer p) d
  | PointerMove p => onDpadMove p d
  | PointerUp p => Some (onDpadUp (Pointer p) d)
  | TouchStart rect touches changed =>
      match onDpadDown rect (Touch touches changed) d with
      | Some (d1, t) => Some (d1, PreventDefault :: t)
      | None => None
      end
  | TouchEnd touches changed =>
      let (d1, t) := onDpadUp (Touch touches changed) d in
      Some (d1, PreventDefault :: t)
  end.

(** A run of inputs; a handler that throws ends it. *)
Fixpoint steps (inputs : list input) (d : DpadController)
  : option (DpadController * list effect) :=
  match inputs with
  | [] => Some (d, [])
  | i :: rest =>
      match step i d with
      | Some (d1, t1) =>
          match steps rest d1 with
          | Some (d2, t2) => Some (d2, t1 ++ t2)
          | None => None
          end
      | None => None
      end
  end.

(** The same d-pad with another [keyRepeat] flag. *)
Definition set_keyRepeat (k : bool) (d : DpadController) : DpadController :=
  {| radius := radius d; centerThreshold := centerThreshold d;
     onPressCallback := onPressCallback d;
     onReleaseCallback := onReleaseCallback d;
     verboseLogging := verboseLogging d;
     currentDirection := currentDirection d;
     pressedPaths := pressedPaths d; opacity := opacity d;
     pointerId_ := pointerId_ d;
     baseRect := baseRect d;
     inputRegisterDistance := inputRegisterDistance d;
     isPressed := isPressed d;
     keyRepeat := k; rotate := rotate d |}.

Definition isPressedEffect (e : effect) : bool :=
  match e with Pressed _ _ => true | _ => false end.

Definition isReleasedEffect (e : effect) : bool :=
  match e with Released _ _ => true | _ => false end.

Definition dragging (rect : DOMRect) (d : DpadController) : Prop :=
  isPressed d = true /\
  baseRect d = Some rect /\
  inputRegisterDistance d =
    Rmin (rect_width rect) (rect_height rect) / 2 * centerThreshold d.

(** A pointer displaced by [(x, y)] from the centre of a rectangle. *)
Definition pointerAt (rect : DOMRect) (x y : R) : PointerEvent :=
  mkPointer 0 (rect_left rect + rect_width rect / 2 + x)
              (rect_top rect + rect_height rect / 2 + y).

(** What every run keeps true of a d-pad: a held d-pad has a rectangle
    cached, a direction is shown only while it is held, and the dead zone is
    the one computed from the cached rectangle. *)
Definition armed (d : DpadController) : Prop :=
  (isPressed d = true -> baseRect d <> None) /\
  (currentDirection d <> Center -> isPressed d = true) /\
  (forall rect, baseRect d = Some rect ->
                inputRegisterDistance d =
                  Rmin (rect_width rect) (rect_height rect) / 2
                  * centerThreshold d).

(** The arms of the cross a direction is made of, in the order of
    [pathData]. *)
Definition arms (dir : direction) : list string :=
  match dir with
  | Center => []
  | Up => ["up"]
  | Right => ["right"]
  | Down => ["down"]
  | Left => ["left"]
  | UpRight => ["up"; "right"]
  | DownRight => ["right"; "down"]
  | DownLeft => ["down"; "left"]
  | UpLeft => ["up"; "left"]
  end%string.

(** A move to [e] returns and leaves the direction [dir]. *)
Definition reads (e : PointerEvent) (d : DpadController) (dir : direction)
  : Prop :=
  exists (d' : DpadController) (t : list effect),
    onDpadMove e d = Some (d', t) /\ currentDirection d' = dir.

(** Every call of the press callback along a trace is a call of [f]. *)
Definition pressesGoTo (f : callback) (t : list effect) : Prop :=
  Forall (fun e => match e with
                   | Pressed g _ => g = f
                   | _ => True
                   end) t.

End Dpad.

(** ** Joystick.ts *)

Module Joystick.

Record JoysickControllerOptions : Type := mkOptions {
  opt_rotate : option R;
  opt_radius : option R;
  opt_onInputCallback : option callback;
  opt_verboseLogging : option bool
}.

(** [baseThumb.style.transform]: [translate(-50%, -50%)], or the same moved
    by [x] and [y] pixels. *)
Inductive transform : Type :=
| Centered
| MovedBy (x y : R).

Record JoysickController : Type := mkJoystick {
  rotate : R;
  radius : R;
  onInputCallback : callback;
  isPressed : bool;
  verboseLogging : bool;
  opacity : string;
  thumbTransform : transform;
  baseRect : option DOMRect;
  thumbMaxDistance : R
}.

Inductive effect : Type :=
| Input (f : callback) (x y : R)    (* onInputCallback(x, y) *)
| PreventDefault
| SetPointerCapture (id : Z).

(** What the DOM reports when [updateContainerRectangle] asks: the rectangle
    of [base] and [baseThumb.offsetWidth]. *)
Record layout : Type := mkLayout {
  boundingClientRect : DOMRect;
  thumbOffsetWidth : R
}.

(** [updateContainerRectangle], lines 270-280. *)
Definition updateContainerRectangle (dom : layout) (j : JoysickController)
  : JoysickController :=
  {| rotate := rotate j; radius := radius j;
     onInputCallback := onInputCallback j;
     isPressed := isPressed j;
     verboseLogging := verboseLogging j;
     opacity := opacity j;
     thumbTransform := thumbTransform j;
     baseRect := Some (boundingClientRect dom);
     thumbMaxDistance := (radius j - thumbOffsetWidth dom) / 1.5 |}.

(** The constructor ends in [init], which reads the layout once. *)
Definition constructor (options : JoysickControllerOptions) (dom : layout)
  : JoysickController :=
  updateContainerRectangle dom
    {| rotate := orDefault (opt_rotate options) 0;
       radius := numberOr (opt_radius options) 5;
       onInputCallback := orDefault (opt_onInputCallback options) DefaultLogger;
       isPressed := false;
       verboseLogging := orDefault (opt_verboseLogging options) false;
       opacity := "0.7";
       thumbTransform := Centered;
       baseRect := None;
       thumbMaxDistance := 0 |}.

(** [onJoysickUp], lines 289-298. *)
Definition onJoysickUp (j : JoysickController)
  : JoysickController * list effect :=
  ({| rotate := rotate j; radius := radius j;
      onInputCallback := onInputCallback j;
      isPressed := false;
      verboseLogging := verboseLogging j;
      opacity := "0.7";
      thumbTransform := Centered;
      baseRect := baseRect j;
      thumbMaxDistance := thumbMaxDistance j |},
   [PreventDefault]).

(** The pointer position relative to the centre of the cached rectangle. *)
Definition rawDisplacement (rect : DOMRect) (e : PointerEvent) : R * R :=
  let baseCenterX := rect_left rect + rect_width rect / 2 in
  let baseCenterY := rect_top rect + rect_height rect / 2 in
  (clientX e - baseCenterX, clientY e - baseCenterY).

(** The displacement drawn on screen: pulled back onto the disc of radius
    [maxDistance], then turned back by the rotation of the control. *)
Definition thumbOffset (maxDistance rot : R) (raw : R * R) : R * R :=
  let x := fst raw in
  let y := snd raw in
  let distance := Math_hypot x y in
  let (x, y) :=
    if Rltb maxDistance distance
    then (x * (maxDistance / distance), y * (maxDistance / distance))
    else (x, y) in
  if negb (Reqb rot 0) then rotateBack rot x y else (x, y).

(** One axis of the reported vector. *)
Definition normalize (maxDistance v : R) : R :=
  toFixed2 (Rmax (-1) (Rmin 1 (v / maxDistance))).

(** [onJoysickMove], lines 327-369.  [None] is the TypeError of reading
    [left] of an undefined [baseRect]. *)
Definition onJoysickMove (e : PointerEvent) (j : JoysickController)
  : option (JoysickController * list effect) :=
  if negb (isPressed j) then Some (j, [])
  else
    match baseRect j with
    | None => None
    | Some rect =>
        let xy := thumbOffset (thumbMaxDistance j) (rotate j)
                              (rawDisplacement rect e) in
        let x := normalize (thumbMaxDistance j) (fst xy) in
        let y := normalize (thumbMaxDistance j) (snd xy) in
        Some ({| rotate := rotate j; radius := radius j;
                 onInputCallback := onInputCallback j;
                 isPressed := isPressed j;
                 verboseLogging := verboseLogging j;
                 opacity := opacity j;
                 thumbTransform := MovedBy (fst xy) (snd xy);
                 baseRect := baseRect j;
                 thumbMaxDistance := thumbMaxDistance j |},
              [Input (onInputCallback j) x y])
    end.

(** [onJoysickDown], lines 305-320. *)
Definition onJoysickDown (dom : layout) (e : PointerEvent) (j : JoysickController)
  : option (JoysickController * list effect) :=
  let j1 :=
    updateContainerRectangle dom
      {| rotate := rotate j; radius := radius j;
         onInputCallback := onInputCallback j;
         isPressed := true;
         verboseLogging := verboseLogging j;
         opacity := "1";
         thumbTransform := thumbTransform j;
         baseRect := baseRect j;
         thumbMaxDistance := thumbMaxDistance j |} in
  match onJoysickMove e j1 with
  | Some (j2, t) => Some (j2, PreventDefault :: SetPointerCapture (pointerId e) :: t)
  | None => None
  end.

Inductive handler : Type :=
| OnJoysickUp
| OnJoysickDown
| OnJoysickMove.

(** The listeners [init] attaches to [base] (lines 197-201), in the order it
    attaches them. *)
Definition init : list (string * handler) :=
  [ ("pointerup", OnJoysickUp);
    ("pointercancel", OnJoysickUp);
    ("pointerdown", OnJoysickDown);
    ("pointermove", OnJoysickMove) ]%string.

Definition runHandler (h : handler) (dom : layout) (e : PointerEvent)
           (j : JoysickController) : option (JoysickController * list effect) :=
  match h with
  | OnJoysickUp => Some (onJoysickUp j)
  | OnJoysickDown => onJoysickDown dom e j
  | OnJoysickMove => onJoysickMove e j
  end.

(** The browser delivers the event [e] of type [ev] to [base]: the listeners
    for [ev] run in order; a handler that throws ends the delivery. *)
Fixpoint deliver (ls : list (string * handler)) (ev : string) (dom : layout)
         (e : PointerEvent) (j : JoysickController)
  : option (JoysickController * list effect) :=
  match ls with
  | [] => Some (j, [])
  | (name, h) :: rest =>
      if String.eqb name ev
      then match runHandler h dom e j with
           | Some (j1, t1) =>
               match deliver rest ev dom e j1 with
               | Some (j2, t2) => Some (j2, t1 ++ t2)
               | None => None
               end
           | None => None
           end
      else deliver rest ev dom e j
  end.

Definition isInput (e : effect) : bool :=
  match e with Input _ _ _ => true | _ => false end.

(** What reaches the joystick: an event delivered to [base], with what the
    DOM would report then, or a resize of the window, whose listener is
    [updateContainerRectangle] (line 204). *)
Inductive input : Type :=
| Deliver (ev : string) (dom : layout) (e : PointerEvent)
| Resize (dom : layout).

Definition step (i : input) (j : JoysickController)
  : option (JoysickController * list effect) :=
  match i with
  | Deliver ev dom e => deliver init ev dom e j
  | Resize dom => Some (updateContainerRectangle dom j, [])
  end.

(** A run of inputs; a handler that throws ends it. *)
Fixpoint steps (inputs : list input) (j : JoysickController)
  : option (JoysickController * list effect) :=
  match inputs with
  | [] => Some (j, [])
  | i :: rest =>
      match step i j with
      | Some (j1, t1) =>
          match steps rest j1 with
          | Some (j2, t2) => Some (j2, t1 ++ t2)
          | None => None
          end
      | None => None
      end
  end.

(** The pointer event mirrored through the centre of a rectangle. *)
Definition mirrored (rect : DOMRect) (e : PointerEvent) : PointerEvent :=
  mkPointer (pointerId e)
            (2 * (rect_left rect + rect_width rect / 2) - clientX e)
            (2 * (rect_top rect + rect_height rect / 2) - clientY e).

(** What every run keeps true of a joystick: a rectangle is cached, the
    opacity tells whether it is held, and the thumb is at the centre
    whenever it is not. *)
Definition consistent (j : JoysickController) : Prop :=
  baseRect j <> None /\
  opacity j = (if isPressed j then "1" else "0.7")%string /\
  (isPressed j = false -> thumbTransform j = Centered).

(** Every call of the input callback along a trace is a call of [f]. *)
Definition reportsTo (f : callback) (t : list effect) : Prop :=
  Forall (fun e => match e with
                   | Input g _ _ => g = f
                   | _ => True
                   end) t.

End Joystick.

(** ** RetractableSlider.ts *)

Module Slider.

(** The slider's own [direction] union. *)
Inductive direction : Type := vertical | horizontal.

Record RetrackableSliderOptions : Type := mkOptions {
  opt_direction : option direction;
  opt_onSlideCallback : option callback;
  opt_onReleaseCallback : option callback;
  opt_verboseLogging : option bool
}.

Record RetrackableSlider : Type := mkSlider {
  direction_ : direction;
  onSlideCallback : option callback;
  onReleaseCallback : option callback;
  verboseLogging : bool;
  sliderPercent : R;      (* the height (vertical) or width of [baseSlider], in % *)
  baseRect : option DOMRect;
  isPressed : bool;
  valuePercent : R
}.

Inductive effect : Type :=
| Slide (f : callback) (value : R)   (* onSlideCallback.call(this, value) *)
| Release (f : callback)             (* onReleaseCallback.call(this) *)
| PreventDefault
| SetPointerCapture (id : Z).

Definition constructor (options : RetrackableSliderOptions) : RetrackableSlider :=
  {| direction_ := orDefault (opt_direction options) vertical;
     onSlideCallback := Some (orDefault (opt_onSlideCallback options) DefaultLogger);
     onReleaseCallback := Some (orDefault (opt_onReleaseCallback options) DefaultLogger);
     verboseLogging := orDefault (opt_verboseLogging options) false;
     sliderPercent := 0;
     baseRect := None;
     isPressed := false;
     valuePercent := 0 |}.

(** [this.valuePercent = v; this.updateUI()]. *)
Definition set_value (v : R) (s : RetrackableSlider) : RetrackableSlider :=
  {| direction_ := direction_ s;
     onSlideCallback := onSlideCallback s;
     onReleaseCallback := onReleaseCallback s;
     verboseLogging := verboseLogging s;
     sliderPercent := v;
     baseRect := baseRect s;
     isPressed := isPressed s;
     valuePercent := v |}.

Definition set_isPressed (p : bool) (s : RetrackableSlider) : RetrackableSlider :=
  {| direction_ := direction_ s;
     onSlideCallback := onSlideCallback s;
     onReleaseCallback := onReleaseCallback s;
     verboseLogging := verboseLogging s;
     sliderPercent := sliderPercent s;
     baseRect := baseRect s;
     isPressed := p;
     valuePercent := valuePercent s |}.

(** [rect] is what [this.base.getBoundingClientRect()] returns now. *)
Definition updateContainerRectangle (rect : DOMRect) (s : RetrackableSlider)
  : RetrackableSlider :=
  {| direction_ := direction_ s;
     onSlideCallback := onSlideCallback s;
     onReleaseCallback := onReleaseCallback s;
     verboseLogging := verboseLogging s;
     sliderPercent := sliderPercent s;
     baseRect := Some rect;
     isPressed := isPressed s;
     valuePercent := valuePercent s |}.

(** [if (cb) cb.call(this, ...)] for a callback that may be missing. *)
Definition fire (cb : option callback) (mk : callback -> effect) : list effect :=
  match cb with
  | Some f => [mk f]
  | None => []
  end.

(** [onSliderUp], lines 265-284. *)
Definition onSliderUp (s : RetrackableSlider) : RetrackableSlider * list effect :=
  let s1 := set_isPressed false s in
  if negb (Reqb (valuePercent s1) 0)
  then (set_value 0 s1, PreventDefault :: fire (onReleaseCallback s1) Release)
  else (s1, [PreventDefault]).

(** [onSliderDown], lines 289-307; [rect] is the rectangle the DOM reports
    at the time of the press. *)
Definition onSliderDown (rect : DOMRect) (e : PointerEvent) (s : RetrackableSlider)
  : RetrackableSlider * list effect :=
  let s1 := updateContainerRectangle rect (set_isPressed true s) in
  (s1, PreventDefault :: SetPointerCapture (pointerId e)
         :: fire (onSlideCallback s1) (fun f => Slide f (valuePercent s1))).

(** The position of the pointer along the slider, in percent, before it is
    clamped and rounded. *)
Definition rawValue (dir : direction) (rect : DOMRect) (e : PointerEvent) : R :=
  match dir with
  | vertical => 100 - ((clientY e - rect_top rect) / rect_height rect) * 100
  | horizontal => ((clientX e - rect_left rect) / rect_width rect) * 100
  end.

(** [onSliderMove], lines 312-344; [rect] is the rectangle the DOM reports
    at the time of the move, which the handler reads before anything else. *)
Definition onSliderMove (rect : DOMRect) (e : PointerEvent) (s : RetrackableSlider)
  : RetrackableSlider * list effect :=
  if negb (isPressed s) then (s, [PreventDefault])
  else
    let s1 := updateContainerRectangle rect s in
    let value := Math_round (Rmax 0 (Rmin 100 (rawValue (direction_ s1) rect e))) in
    if negb (Reqb (valuePercent s1) value)
    then (set_value value s1,
          PreventDefault :: fire (onSlideCallback s1) (fun f => Slide f value))
    else (s1, [PreventDefault]).


Definition isRelease (e : effect) : bool :=
  match e with Release _ => true | _ => false end.

(** What reaches the slider through the listeners [init] attaches (lines
    216-231): the three pointer events and pointer-cancel on [base], each
    with the rectangle the DOM would report then, the resize of the window,
    and the events whose default is only prevented. *)
Inductive input : Type :=
| PointerDown (rect : DOMRect) (e : PointerEvent)
| PointerMove (rect : DOMRect) (e : PointerEvent)
| PointerUp
| PointerCancel
| Resize (rect : DOMRect)
| Prevented.       (* selectstart, contextmenu, touchstart *)

Definition step (i : input) (s : RetrackableSlider)
  : RetrackableSlider * list effect :=
  match i with
  | PointerDown rect e => onSliderDown rect e s
  | PointerMove rect e => onSliderMove rect e s
  | PointerUp | PointerCancel => onSliderUp s
  | Resize rect => (updateContainerRectangle rect s, [])
  | Prevented => (s, [PreventDefault])
  end.

Fixpoint steps (inputs : list input) (s : RetrackableSlider)
  : RetrackableSlider * list effect :=
  match inputs with
  | [] => (s, [])
  | i :: rest =>
      let (s1, t1) := step i s in
      let (s2, t2) := steps rest s1 in
      (s2, t1 ++ t2)
  end.

(** The arguments of the slide callback along a trace. *)
Fixpoint slideValues (t : list effect) : list R :=
  match t with
  | [] => []
  | Slide _ v :: rest => v :: slideValues rest
  | _ :: rest => slideValues rest
  end.

(** One of the integers 0, 1, ..., 100. *)
Definition wholePercent (v : R) : Prop :=
  exists n : Z, v = IZR n /\ (0 <= n <= 100)%Z.

(** A rectangle with an extent on both axes, so that the position along the
    slider is a quotient of numbers. *)
Definition sized (rect : DOMRect) : Prop :=
  0 < rect_width rect /\ 0 < rect_height rect.

(** An input whose move, if it is one, is measured on a sized rectangle. *)
Definition measurable (i : input) : Prop :=
  match i with
  | PointerMove rect _ => sized rect
  | _ => True
  end.

End Slider.

(** ** Sample inputs *)

Module Samples.

(** A button that is held down. *)
Definition heldButton : Button.ButtonController :=
  Button.mkButton (HostFn "press") (HostFn "release") "0.8" true.

(** A button as the constructor leaves it, both callbacks supplied. *)
Definition freshButton : Button.ButtonController :=
  Button.constructor
    (Button.mkOptions (Some (HostFn "press")) (Some (HostFn "release"))).

(** A vertical slider, 10 by 200 pixels at the origin when it was pressed,
    showing 40 %. *)
Definition rectAtPress : DOMRect := mkRect 0 0 10 200.

Definition draggedSlider : Slider.RetrackableSlider :=
  Slider.mkSlider Slider.vertical (Some (HostFn "slide")) (Some (HostFn "release"))
                  false 40 (Some rectAtPress) true 40.

(** The same element after the page has scrolled by 30 pixels. *)
Definition rectAfterScroll : DOMRect := mkRect 0 (-30) 10 200.

Definition moveTo (x y : R) : PointerEvent := mkPointer 1 x y.

(** A joystick of radius 100 drawn upside down (rotated by 180 degrees),
    its thumb 40 wide, pressed, its rectangle cached. *)
Definition joystickRect : DOMRect := mkRect 0 0 100 100.

Definition turnedJoystick : Joystick.JoysickController :=
  Joystick.mkJoystick 180 100 (HostFn "input") true false "1" Joystick.Centered
                      (Some joystickRect) 40.

(** The same joystick drawn upright. *)
Definition uprightJoystick : Joystick.JoysickController :=
  Joystick.mkJoystick 0 100 (HostFn "input") true false "1" Joystick.Centered
                      (Some joystickRect) 40.

(** A d-pad 100 pixels wide held down, its rectangle and its dead zone
    (a quarter of half the width) cached, showing no direction yet. *)
Definition dpadRect : DOMRect := mkRect 0 0 100 100.

Definition heldDpad : Dpad.DpadController :=
  Dpad.mkDpad 100 0.25 (HostFn "press") DefaultLogger false Dpad.Center []
              "0.5" 1 (Some dpadRect) 12.5 true false 0.

(** A pointer 40 pixels from the centre of [dpadRect], 22.5 degrees above
    the horizontal. *)
Definition pointerAtEighthTurn : PointerEvent :=
  mkPointer 1 (50 + 40 * cos (PI / 8)) (50 - 40 * sin (PI / 8)).

(** Options that supply both callbacks of a d-pad. *)
Definition dpadOptions : Dpad.DpadOptions :=
  Dpad.mkOptions (Some 100) None (Some (HostFn "press"))
                 (Some (HostFn "release")) None None None.


End Samples.

(** * Properties *)

(** ** Numbers *)

Lemma Rltb_true (x y : R) : Rltb x y = true <-> x < y.
Proof.
  unfold Rltb. destruct (Rlt_dec x y); split; intros; auto; discriminate.
Qed.

Lemma Rltb_false (x y : R) : Rltb x y = false <-> y <= x.
Proof.
  unfold Rltb. destruct (Rlt_dec x y); split; intros; auto; try discriminate; lra.
Qed.

Lemma Rleb_true (x y : R) : Rleb x y = true <-> x <= y.
Proof.
  unfold Rleb. destruct (Rle_dec x y); split; intros; auto; discriminate.
Qed.

Lemma Rleb_false (x y : R) : Rleb x y = false <-> y < x.
Proof.
  unfold Rleb. destruct (Rle_dec x y); split; intros; auto; try discriminate; lra.
Qed.

Lemma Reqb_true (x y : R) : Reqb x y = true <-> x = y.
Proof.
  unfold Reqb. destruct (Req_dec_T x y); split; intros; auto; discriminate.
Qed.

Lemma Reqb_false (x y : R) : Reqb x y = false <-> x <> y.
Proof.
  unfold Reqb. destruct (Req_dec_T x y); split; intros; auto; try discriminate.
  contradiction.
Qed.

Lemma Reqb_refl (x : R) : Reqb x x = true.
Proof. now apply Reqb_true. Qed.

(** The floor of a real known to lie in [z, z+1). *)
Lemma Int_part_between (r : R) (z : Z) :
  IZR z <= r < IZR z + 1 -> Int_part r = z.
Proof.
  intros [Hlo Hhi]. symmetry. apply Int_part_spec. lra.
Qed.

Lemma Int_part_bounds (r : R) : IZR (Int_part r) <= r < IZR (Int_part r) + 1.
Proof.
  destruct (base_Int_part r) as [H1 H2]. lra.
Qed.

Lemma Math_round_IZR (z : Z) : Math_round (IZR z) = IZR z.
Proof.
  unfold Math_round. f_equal. apply Int_part_between. lra.
Qed.

Lemma Math_round_mono (x y : R) : x <= y -> Math_round x <= Math_round y.
Proof.
  intros Hxy. unfold Math_round. apply IZR_le.
  destruct (Int_part_bounds (x + / 2)) as [Hx1 Hx2].
  destruct (Int_part_bounds (y + / 2)) as [Hy1 Hy2].
  apply Z.lt_succ_r. apply lt_IZR. rewrite succ_IZR. lra.
Qed.

Lemma toFixed2_IZR (z : Z) : toFixed2 (IZR z) = IZR z.
Proof.
  unfold toFixed2. destruct (Rle_dec 0 (IZR z)) as [Hz | Hz].
  - rewrite (Int_part_between (IZR z * 100 + / 2) (z * 100)).
    + rewrite mult_IZR. field.
    + rewrite mult_IZR. lra.
  - rewrite (Int_part_between (- IZR z * 100 + / 2) (- z * 100)).
    + rewrite mult_IZR, opp_IZR. field.
    + rewrite mult_IZR, opp_IZR. lra.
Qed.


(** ** Button *)

Module ButtonFacts.
Import Button.

Lemma onButtonDown_released (b : ButtonController) :
  isPressed b = false ->
  onButtonDown b =
    (mkButton (onPressCallback b) (onReleaseCallback b) "0.8" true,
     [Press (onPressCallback b)]).
Proof.
  intros H. unfold onButtonDown. now rewrite H.
Qed.

Lemma onButtonDown_pressed (b : ButtonController) :
  isPressed b = true -> onButtonDown b = (b, []).
Proof.
  intros H. unfold onButtonDown. now rewrite H.
Qed.

Lemma onButtonDown_sets_pressed (b : ButtonController) :
  isPressed (fst (onButtonDown b)) = true.
Proof.
  unfold onButtonDown. destruct (isPressed b) eqn:E; simpl; auto.
Qed.

(** C9, as it is worded, at a button that is already held: the two press
    events fire [onPress] zero times, not once. *)
Lemma press_twice_on_held_button_fires_nothing :
  pressCount (snd (calls [Down; Down] Samples.heldButton)) = 0%nat /\
  pressCount (snd (calls [Down; Down] Samples.heldButton)) <> 1%nat.
Proof.
  split; [reflexivity | discriminate].
Qed.

(** C9 (amended): pressing is idempotent.  From any state two press events in
    a row leave the button in the state, and the host with the calls, that one
    press event does; the button is pressed afterwards; [onPress] has fired
    once if the button was released before and not at all if it was held.
    Symmetrically a release event on a released button changes nothing and
    fires nothing. *)
Theorem press_is_idempotent :
  forall b : ButtonController,
    calls [Down; Down] b = calls [Down] b /\
    isPressed (fst (calls [Down; Down] b)) = true /\
    pressCount (snd (calls [Down; Down] b)) = (if isPressed b then 0 else 1)%nat /\
    snd (calls [Down; Down] b) =
      (if isPressed b then [] else [Press (onPressCallback b)]) /\
    (forall p r o,
        onButtonUp (mkButton p r o false) = (mkButton p r o false, [])).
Proof.
  intros b. destruct b as [p r o pressed]. destruct pressed; simpl.
  - repeat split; reflexivity.
  - repeat split; reflexivity.
Qed.

Lemma init_listens_on_container :
  forall l, In l init -> on_node l = Container.
Proof.
  intros l Hin. unfold init in Hin. simpl in Hin.
  repeat (destruct Hin as [<- | Hin]; [reflexivity |]). contradiction.
Qed.

(** C10: the press listener sits on the container, so on a released button a
    pointer-down whose target is anywhere inside the container (the
    container itself, the button's element, its icon, or any other node in
    it) sets [isPressed] and fires [onPress], once. *)
Theorem press_anywhere_in_container :
  forall (b : ButtonController) (target : node),
    isPressed b = false ->
    contains Container target = true ->
    dispatch init "pointerdown" target b =
      (mkButton (onPressCallback b) (onReleaseCallback b) "0.8" true,
       [Press (onPressCallback b)]).
Proof.
  intros b target Hreleased Hin.
  destruct target; try discriminate Hin;
    cbn; unfold onButtonDown; rewrite Hreleased; reflexivity.
Qed.

Lemma press_anywhere_in_container_witness :
  isPressed Samples.freshButton = false /\
  contains Container (Inside 3) = true /\
  dispatch init "pointerdown" (Inside 3) Samples.freshButton =
    (mkButton (HostFn "press") (HostFn "release") "0.8" true,
     [Press (HostFn "press")]).
Proof.
  split; [reflexivity | split; [reflexivity |]].
  apply (press_anywhere_in_container Samples.freshButton (Inside 3));
    reflexivity.
Defined.

(** A pointer-down outside the container does not reach the button. *)
Lemma press_outside_container (b : ButtonController) (n : nat) :
  dispatch init "pointerdown" (Outside n) b = (b, []).
Proof. reflexivity. Qed.

End ButtonFacts.

(** ** Retractable slider *)

Module SliderFacts.
Import Slider.

(** A clamped percentage rounds to one of the integers 0..100. *)
Lemma round_clamped_percent (v : R) :
  exists n : Z,
    Math_round (Rmax 0 (Rmin 100 v)) = IZR n /\ (0 <= n <= 100)%Z.
Proof.
  set (c := Rmax 0 (Rmin 100 v)).
  assert (Hc : 0 <= c <= 100).
  { unfold c. split.
    - apply Rmax_l.
    - apply Rmax_lub; [lra | apply Rmin_l]. }
  exists (Int_part (c + / 2)). split; [reflexivity |].
  destruct (Int_part_bounds (c + / 2)) as [Hlo Hhi].
  split.
  - apply Z.lt_succ_r, lt_IZR. rewrite succ_IZR. lra.
  - apply Z.lt_succ_r, lt_IZR. rewrite succ_IZR. simpl. lra.
Qed.

Lemma onSliderMove_pressed (rect : DOMRect) (e : PointerEvent)
      (s : RetrackableSlider) :
  isPressed s = true ->
  let value := Math_round (Rmax 0 (Rmin 100 (rawValue (direction_ s) rect e))) in
  onSliderMove rect e s =
    if Reqb (valuePercent s) value
    then (updateContainerRectangle rect s, [PreventDefault])
    else (set_value value (updateContainerRectangle rect s),
          PreventDefault :: fire (onSlideCallback s) (fun f => Slide f value)).
Proof.
  intros Hp value. unfold onSliderMove. rewrite Hp. simpl.
  fold value. destruct (Reqb (valuePercent s) value); reflexivity.
Qed.



(** C8: releasing the slider retracts it.  With a nonzero value the value
    goes to 0 and [onReleaseCallback] is called exactly once; with the value
    already 0 it stays 0 and the callback is not called. *)
Theorem slider_release_retracts :
  forall (s : RetrackableSlider) (f : callback),
    onReleaseCallback s = Some f ->
    valuePercent (fst (onSliderUp s)) = 0 /\
    isPressed (fst (onSliderUp s)) = false /\
    (valuePercent s <> 0 ->
     filter isRelease (snd (onSliderUp s)) = [Release f]) /\
    (valuePercent s = 0 ->
     filter isRelease (snd (onSliderUp s)) = []).
Proof.
  intros s f Hcb. unfold onSliderUp. simpl.
  destruct (Reqb (valuePercent s) 0) eqn:E; simpl.
  - apply Reqb_true in E. repeat split; auto. intros H. contradiction.
  - apply Reqb_false in E. rewrite Hcb. simpl. repeat split; auto.
    intros H. contradiction.
Qed.

Lemma slider_release_retracts_witness :
  onReleaseCallback Samples.draggedSlider = Some (HostFn "release") /\
  valuePercent (fst (onSliderUp Samples.draggedSlider)) = 0 /\
  filter isRelease (snd (onSliderUp Samples.draggedSlider)) =
    [Release (HostFn "release")].
Proof.
  split; [reflexivity |].
  destruct (slider_release_retracts Samples.draggedSlider (HostFn "release")
              eq_refl) as (Hzero & _ & Hfired & _).
  split; [exact Hzero |]. apply Hfired. simpl. lra.
Defined.

(** Dragged to the top edge, a vertical slider reads 100. *)
Example slider_top_edge :
  onSliderMove Samples.rectAtPress (Samples.moveTo 5 0) Samples.draggedSlider =
    (set_value 100 Samples.draggedSlider,
     [PreventDefault; Slide (HostFn "slide") 100]).
Proof.
  rewrite (onSliderMove_pressed Samples.rectAtPress (Samples.moveTo 5 0)
             Samples.draggedSlider eq_refl).
  simpl.
  replace (Rmax 0 (Rmin 100 (100 - (0 - 0) / 200 * 100))) with (IZR 100).
  - rewrite Math_round_IZR.
    replace (Reqb 40 100) with false by (symmetry; apply Reqb_false; lra).
    reflexivity.
  - replace (100 - (0 - 0) / 200 * 100) with 100 by lra.
    rewrite Rmin_left by lra. rewrite Rmax_right by lra. reflexivity.
Qed.

(** Dragged below the bottom edge, it reads 0, the clamp at work. *)
Example slider_below_bottom :
  valuePercent
    (fst (onSliderMove Samples.rectAtPress (Samples.moveTo 5 260)
                       Samples.draggedSlider)) = 0.
Proof.
  rewrite (onSliderMove_pressed Samples.rectAtPress (Samples.moveTo 5 260)
             Samples.draggedSlider eq_refl).
  simpl.
  replace (Rmax 0 (Rmin 100 (100 - (260 - 0) / 200 * 100))) with (IZR 0).
  - rewrite Math_round_IZR.
    replace (Reqb 40 0) with false by (symmetry; apply Reqb_false; lra).
    reflexivity.
  - replace (100 - (260 - 0) / 200 * 100) with (-30) by lra.
    rewrite Rmin_right by lra. rewrite Rmax_left by lra. reflexivity.
Qed.

End SliderFacts.

(** ** Vectors *)



Lemma hypot_le (x y b : R) : 0 <= b -> x * x + y * y <= b * b -> Math_hypot x y <= b.
Proof.
  intros Hb H. unfold Math_hypot.
  rewrite <- (sqrt_square b Hb). now apply sqrt_le_1_alt.
Qed.

Lemma hypot_axis (x : R) : 0 <= x -> Math_hypot x 0 = x.
Proof.
  intros Hx. unfold Math_hypot.
  replace (x * x + 0 * 0) with (x * x) by ring. now apply sqrt_square.
Qed.

Lemma sin_cos_sqr (a : R) : sin a * sin a + cos a * cos a = 1.
Proof. pose proof (sin2_cos2 a) as H. unfold Rsqr in H. exact H. Qed.

Lemma rotateBack_zero (x y : R) : rotateBack 0 x y = (x, y).
Proof.
  unfold rotateBack. set (a := _ / 180).
  assert (Ha : a = 0) by (unfold a; field). rewrite Ha.
  rewrite cos_0, sin_0. f_equal; ring.
Qed.


(** Turning a vector does not change its length. *)
Lemma rotateBack_norm (r x y : R) :
  fst (rotateBack r x y) * fst (rotateBack r x y)
  + snd (rotateBack r x y) * snd (rotateBack r x y) = x * x + y * y.
Proof.
  unfold rotateBack. simpl.
  pose proof (sin_cos_sqr (- r * PI / 180)) as H. nra.
Qed.




Lemma clamp_unit_id (v : R) : -1 <= v <= 1 -> Rmax (-1) (Rmin 1 v) = v.
Proof.
  intros [H1 H2]. rewrite Rmin_right by lra. now rewrite Rmax_right by lra.
Qed.

(** ** Joystick *)

Module JoystickFacts.
Import Joystick.

(** C5: a release, whether the browser reports it as pointer-up or as
    pointer-cancel, runs [onJoysickUp] and nothing else; the handler does not
    call [onInputCallback] (no (0, 0) is sent), it clears [isPressed] and
    puts the thumb back to the centre. *)
Theorem release_sends_no_input :
  forall (ev : string) (dom : layout) (e : PointerEvent) (j : JoysickController),
    ev = "pointerup"%string \/ ev = "pointercancel"%string ->
    deliver init ev dom e j = Some (onJoysickUp j) /\
    filter isInput (snd (onJoysickUp j)) = [] /\
    (forall f x y, ~ In (Input f x y) (snd (onJoysickUp j))) /\
    isPressed (fst (onJoysickUp j)) = false /\
    thumbTransform (fst (onJoysickUp j)) = Centered.
Proof.
  intros ev dom e j Hev. split.
  - destruct Hev as [-> | ->]; reflexivity.
  - simpl. repeat split; auto.
    intros f x y [H | []]. discriminate H.
Qed.

Lemma release_sends_no_input_witness :
  ("pointercancel"%string = "pointerup"%string \/
   "pointercancel"%string = "pointercancel"%string) /\
  deliver init "pointercancel" (mkLayout Samples.joystickRect 40)
          (Samples.moveTo 250 50) Samples.turnedJoystick =
    Some (onJoysickUp Samples.turnedJoystick).
Proof.
  split; [right; reflexivity |].
  apply (release_sends_no_input "pointercancel" (mkLayout Samples.joystickRect 40)
           (Samples.moveTo 250 50) Samples.turnedJoystick).
  right; reflexivity.
Defined.

Lemma onJoysickMove_pressed (e : PointerEvent) (j : JoysickController)
      (rect : DOMRect) :
  isPressed j = true ->
  baseRect j = Some rect ->
  let d := thumbOffset (thumbMaxDistance j) (rotate j) (rawDisplacement rect e) in
  onJoysickMove e j =
    Some (mkJoystick (rotate j) (radius j) (onInputCallback j) true
                     (verboseLogging j) (opacity j)
                     (MovedBy (fst d) (snd d)) (Some rect) (thumbMaxDistance j),
          [Input (onInputCallback j)
                 (normalize (thumbMaxDistance j) (fst d))
                 (normalize (thumbMaxDistance j) (snd d))]).
Proof.
  intros Hp Hr d. unfold onJoysickMove. rewrite Hp, Hr. simpl.
  fold d. reflexivity.
Qed.

(** Beyond the disc, the offset of the thumb is the unit vector of the raw
    displacement, scaled to the rim and turned back. *)
Lemma thumbOffset_beyond (tmd rot dx dy : R) :
  tmd < Math_hypot dx dy ->
  thumbOffset tmd rot (dx, dy) =
    rotateBack rot (tmd * (dx / Math_hypot dx dy)) (tmd * (dy / Math_hypot dx dy)).
Proof.
  intros Hfar. unfold thumbOffset. simpl.
  assert (Hlt : Rltb tmd (Math_hypot dx dy) = true) by now apply Rltb_true.
  rewrite Hlt.
  replace (dx * (tmd / Math_hypot dx dy)) with (tmd * (dx / Math_hypot dx dy))
    by (unfold Rdiv; ring).
  replace (dy * (tmd / Math_hypot dx dy)) with (tmd * (dy / Math_hypot dx dy))
    by (unfold Rdiv; ring).
  destruct (Reqb rot 0) eqn:E; simpl; [| reflexivity].
  apply Reqb_true in E. subst rot. now rewrite rotateBack_zero.
Qed.






(** The end-to-end case of the specification: far to the right of an
    upright joystick the callback gets (1, 0). *)
Example upright_joystick_far_right :
  exists j',
    onJoysickMove (Samples.moveTo 250 50) Samples.uprightJoystick =
      Some (j', [Input (HostFn "input") 1 0]).
Proof.
  rewrite (onJoysickMove_pressed (Samples.moveTo 250 50) Samples.uprightJoystick
             Samples.joystickRect eq_refl eq_refl).
  eexists. f_equal. f_equal.
  replace (rawDisplacement Samples.joystickRect (Samples.moveTo 250 50))
    with (200, 0) by (unfold rawDisplacement; simpl; f_equal; lra).
  simpl thumbMaxDistance. simpl rotate.
  assert (Hh : Math_hypot 200 0 = 200) by (apply hypot_axis; lra).
  rewrite thumbOffset_beyond by (rewrite Hh; lra).
  rewrite Hh, rotateBack_zero. simpl fst. simpl snd.
  unfold normalize.
  replace (40 * (200 / 200) / 40) with (IZR 1) by (simpl; field).
  replace (40 * (0 / 200) / 40) with (IZR 0) by (simpl; field).
  rewrite (clamp_unit_id (IZR 1)) by (simpl; lra).
  rewrite (clamp_unit_id (IZR 0)) by (simpl; lra).
  now rewrite !toFixed2_IZR.
Qed.

(** Inside the disc nothing is rescaled: 10 pixels right and 20 down of the
    centre, with 40 pixels of travel, is reported as (0.25, 0.5). *)
Example upright_joystick_inside :
  exists j',
    onJoysickMove (Samples.moveTo 60 70) Samples.uprightJoystick =
      Some (j', [Input (HostFn "input") 0.25 0.5]).
Proof.
  rewrite (onJoysickMove_pressed (Samples.moveTo 60 70) Samples.uprightJoystick
             Samples.joystickRect eq_refl eq_refl).
  eexists. f_equal. f_equal.
  replace (rawDisplacement Samples.joystickRect (Samples.moveTo 60 70))
    with (10, 20) by (unfold rawDisplacement; simpl; f_equal; lra).
  simpl thumbMaxDistance. simpl rotate.
  unfold thumbOffset. simpl fst. simpl snd.
  assert (Hnear : Rltb 40 (Math_hypot 10 20) = false).
  { apply Rltb_false. apply hypot_le; lra. }
  rewrite Hnear, Reqb_refl. simpl negb. cbv iota. simpl fst. simpl snd.
  unfold normalize.
  replace (10 / 40) with 0.25 by lra. replace (20 / 40) with 0.5 by lra.
  rewrite !clamp_unit_id by lra.
  unfold toFixed2.
  destruct (Rle_dec 0 0.25) as [_ | Hn]; [| lra].
  destruct (Rle_dec 0 0.5) as [_ | Hn]; [| lra].
  rewrite (Int_part_between (0.25 * 100 + / 2) 25) by lra.
  rewrite (Int_part_between (0.5 * 100 + / 2) 50) by lra.
  replace (IZR 25 / 100) with 0.25 by lra.
  replace (IZR 50 / 100) with 0.5 by lra.
  reflexivity.
Qed.

End JoystickFacts.

(** ** D-pad *)

Module DpadFacts.
Import Dpad.

Lemma direction_eqb_eq (a b : direction) : direction_eqb a b = true <-> a = b.
Proof.
  split.
  - destruct a, b; intros H; try reflexivity; discriminate H.
  - intros ->. destruct b; reflexivity.
Qed.

Lemma direction_eqb_refl (a : direction) : direction_eqb a a = true.
Proof. now apply direction_eqb_eq. Qed.

(** *** The chain of comparisons *)

Lemma findDirection_dead_zone (dist reg angle : R) :
  dist <= reg -> findDirection dist reg angle = Center.
Proof.
  intros H. unfold findDirection.
  assert (E : Rltb reg dist = false) by now apply Rltb_false.
  now rewrite E.
Qed.

Lemma findDirection_right (dist reg angle : R) :
  reg < dist -> -22.5 < angle <= 22.5 ->
  findDirection dist reg angle = Right.
Proof.
  intros Hd [Hlo Hhi]. unfold findDirection.
  assert (E0 : Rltb reg dist = true) by now apply Rltb_true.
  assert (E1 : Rltb (-22.5) angle = true) by now apply Rltb_true.
  assert (E2 : Rleb angle 22.5 = true) by now apply Rleb_true.
  now rewrite E0, E1, E2.
Qed.


(** *** The move handler *)

Lemma onDpadMove_pressed (e : PointerEvent) (d : DpadController) (rect : DOMRect) :
  isPressed d = true ->
  baseRect d = Some rect ->
  let xy := displacement rect (rotate d) e in
  let dir := findDirection (centerDistanceOf xy) (inputRegisterDistance d)
                           (angleOf xy) in
  onDpadMove e d =
    if direction_eqb (currentDirection d) dir
    then Some (d, [])
    else Some (set_direction dir (updateDpadUI dir) d,
               [Pressed (onPressCallback d) dir]).
Proof.
  intros Hp Hr xy dir. unfold onDpadMove. rewrite Hp, Hr. simpl.
  fold xy. fold dir. destruct (direction_eqb (currentDirection d) dir); reflexivity.
Qed.

(** Whatever the direction was, after a move on a pressed d-pad it is the
    one the chain of comparisons picks. *)
Lemma onDpadMove_direction (e : PointerEvent) (d : DpadController) (rect : DOMRect) :
  isPressed d = true ->
  baseRect d = Some rect ->
  let xy := displacement rect (rotate d) e in
  exists d' t,
    onDpadMove e d = Some (d', t) /\
    currentDirection d' =
      findDirection (centerDistanceOf xy) (inputRegisterDistance d) (angleOf xy).
Proof.
  intros Hp Hr xy.
  pose proof (onDpadMove_pressed e d rect Hp Hr) as H. simpl in H. fold xy in H.
  destruct (direction_eqb (currentDirection d) _) eqn:E.
  - apply direction_eqb_eq in E. exists d, []. split; [exact H | exact E].
  - eexists. eexists. split; [exact H | reflexivity].
Qed.


(** *** The press handler and the dead zone *)

Lemma onDpadDown_dragging (rect : DOMRect) (p : PointerEvent) (d : DpadController) :
  exists d' t,
    onDpadDown rect (Pointer p) d = Some (d', t) /\
    dragging rect d' /\ centerThreshold d' = centerThreshold d.
Proof.
  unfold onDpadDown.
  set (d1 := updateContainerRectangle rect (set_press true (pointerId p) d)).
  pose proof (onDpadMove_pressed p d1 rect eq_refl eq_refl) as H.
  simpl in H. rewrite H.
  destruct (direction_eqb _ _); eexists; eexists;
    (split; [reflexivity | split; [repeat split | reflexivity]]).
Qed.

Lemma onDpadMove_dragging (rect : DOMRect) (e : PointerEvent)
      (d d' : DpadController) (t : list effect) :
  dragging rect d ->
  onDpadMove e d = Some (d', t) ->
  dragging rect d' /\ centerThreshold d' = centerThreshold d.
Proof.
  intros (Hp & Hr & Hreg) Hmove.
  rewrite (onDpadMove_pressed e d rect Hp Hr) in Hmove.
  destruct (direction_eqb _ _); inversion Hmove; subst; clear Hmove.
  - repeat split; auto.
  - repeat split; auto.
Qed.

(** The test the handler itself makes: a computed distance within the
    registered one reads [center]. *)
Lemma dead_zone_by_computed_distance (e : PointerEvent) (d : DpadController)
      (rect : DOMRect) :
  isPressed d = true ->
  baseRect d = Some rect ->
  centerDistanceOf (displacement rect (rotate d) e) <= inputRegisterDistance d ->
  exists d' t,
    onDpadMove e d = Some (d', t) /\ currentDirection d' = Center.
Proof.
  intros Hp Hr Hnear.
  destruct (onDpadMove_direction e d rect Hp Hr) as (d' & t & Hmove & Hdir).
  exists d', t. split; [exact Hmove |].
  rewrite Hdir. now apply findDirection_dead_zone.
Qed.



(** *** Angles *)


Lemma angleOf_right (x : R) : 0 < x -> angleOf (x, 0) = 0.
Proof.
  intros Hx. unfold angleOf, Math_atan2. simpl fst. simpl snd.
  destruct (Rlt_dec 0 x) as [_ | Hn]; [| contradiction].
  replace (- 0 / x) with 0 by (field; lra).
  rewrite atan_0. field. apply PI_neq0.
Qed.

Lemma eighth_turn_displacement :
  displacement Samples.dpadRect 0 Samples.pointerAtEighthTurn =
    (40 * cos (PI / 8), - (40 * sin (PI / 8))).
Proof.
  unfold displacement. rewrite Reqb_refl. simpl. f_equal; lra.
Qed.


Lemma eighth_turn_distance :
  centerDistanceOf (displacement Samples.dpadRect 0 Samples.pointerAtEighthTurn)
  = 40.
Proof.
  rewrite eighth_turn_displacement. unfold centerDistanceOf. simpl fst. simpl snd.
  pose proof (sin_cos_sqr (PI / 8)) as H.
  replace (40 * cos (PI / 8) * (40 * cos (PI / 8))
           + - (40 * sin (PI / 8)) * - (40 * sin (PI / 8)))
    with (40 * 40) by nra.
  apply sqrt_square. lra.
Qed.




(** *** The release callback *)

(** Whatever the options hold, the release callback of a new d-pad is the
    constructor's own logger; the press callback is the supplied one. *)
Lemma constructor_callbacks (options : DpadOptions) :
  onReleaseCallback (constructor options) = DefaultLogger /\
  onPressCallback (constructor options) =
    orDefault (opt_onPressCallback options) DefaultLogger.
Proof. split; reflexivity. Qed.

(** No handler installs another release callback later. *)
Lemma onDpadUp_keeps_callbacks (e : event) (d : DpadController) :
  onReleaseCallback (fst (onDpadUp e d)) = onReleaseCallback d /\
  onPressCallback (fst (onDpadUp e d)) = onPressCallback d.
Proof.
  unfold onDpadUp, releaseDirection.
  destruct e as [p | touches changed].
  - destruct (Z.eqb (pointerId p) (pointerId_ d)); simpl;
      destruct (direction_eqb _ Center); simpl; split; reflexivity.
  - destruct (0 <? List.length changed)%nat; simpl;
      destruct (direction_eqb _ Center); simpl; split; reflexivity.
Qed.

(** Releasing the pointer that holds a direction tells the installed release
    callback, with [center]. *)
Lemma onDpadUp_fires_installed (p : PointerEvent) (d : DpadController) :
  pointerId p = pointerId_ d ->
  currentDirection d <> Center ->
  snd (onDpadUp (Pointer p) d) =
    [PreventDefault; Released (onReleaseCallback d) Center] /\
  currentDirection (fst (onDpadUp (Pointer p) d)) = Center /\
  isPressed (fst (onDpadUp (Pointer p) d)) = false.
Proof.
  intros Hid Hdir. unfold onDpadUp, releaseDirection.
  rewrite Hid, Z.eqb_refl. simpl.
  destruct (direction_eqb (currentDirection d) Center) eqn:E.
  - apply direction_eqb_eq in E. contradiction.
  - simpl. repeat split; reflexivity.
Qed.

(** C1 on the code: a d-pad built with [onReleaseCallback] supplied, pressed
    on its right arm and released.  The callback installed is the
    constructor's logger, and it, not the supplied function, is what the
    release calls with [center]; the supplied press callback is honoured. *)
Theorem supplied_release_callback_is_dropped :
  opt_onReleaseCallback Samples.dpadOptions = Some (HostFn "release") /\
  onReleaseCallback (constructor Samples.dpadOptions) = DefaultLogger /\
  exists d1 d2,
    onDpadDown Samples.dpadRect (Pointer (Samples.moveTo 100 50))
               (constructor Samples.dpadOptions) =
      Some (d1, [SetPointerCapture 1; Pressed (HostFn "press") Right]) /\
    onDpadUp (Pointer (Samples.moveTo 100 50)) d1 =
      (d2, [PreventDefault; Released DefaultLogger Center]) /\
    ~ In (Released (HostFn "release") Center)
         (snd (onDpadUp (Pointer (Samples.moveTo 100 50)) d1)).
Proof.
  split; [reflexivity | split; [reflexivity |]].
  unfold onDpadDown.
  set (d0 := updateContainerRectangle Samples.dpadRect
               (set_press true (pointerId (Samples.moveTo 100 50))
                          (constructor Samples.dpadOptions))).
  assert (Hxy : displacement Samples.dpadRect (rotate d0) (Samples.moveTo 100 50)
                = (50, 0)).
  { unfold displacement. simpl rotate. rewrite Reqb_refl. simpl. f_equal; lra. }
  assert (Hreg : inputRegisterDistance d0 = 12.5).
  { simpl. rewrite Rmin_left by lra. lra. }
  assert (Hdist : centerDistanceOf (50, 0) = 50).
  { unfold centerDistanceOf. simpl.
    replace (50 * 50 + 0 * 0) with (50 * 50) by ring. apply sqrt_square. lra. }
  rewrite (onDpadMove_pressed (Samples.moveTo 100 50) d0 Samples.dpadRect
             eq_refl eq_refl).
  rewrite Hxy, Hreg, Hdist, angleOf_right by lra.
  rewrite findDirection_right by lra.
  simpl direction_eqb. cbv iota.
  eexists. eexists. split; [reflexivity |].
  split; [reflexivity |].
  simpl. intros [H | [H | []]]; discriminate H.
Qed.

End DpadFacts.

(** ** The cached rectangle *)

Module RectangleFacts.

(** C4, as it is worded, on the slider: dragged after the page has scrolled,
    the move handler reads the rectangle again and the cached one changes. *)
Lemma slider_move_reads_rectangle_again :
  Slider.isPressed Samples.draggedSlider = true /\
  Slider.baseRect Samples.draggedSlider = Some Samples.rectAtPress /\
  Slider.baseRect
    (fst (Slider.onSliderMove Samples.rectAfterScroll (Samples.moveTo 5 50)
                              Samples.draggedSlider))
    = Some Samples.rectAfterScroll /\
  Slider.baseRect
    (fst (Slider.onSliderMove Samples.rectAfterScroll (Samples.moveTo 5 50)
                              Samples.draggedSlider))
    <> Slider.baseRect Samples.draggedSlider.
Proof.
  assert (Hmove :
            Slider.baseRect
              (fst (Slider.onSliderMove Samples.rectAfterScroll
                      (Samples.moveTo 5 50) Samples.draggedSlider))
            = Some Samples.rectAfterScroll).
  { rewrite (SliderFacts.onSliderMove_pressed Samples.rectAfterScroll
               (Samples.moveTo 5 50) Samples.draggedSlider eq_refl).
    destruct (Reqb _ _); reflexivity. }
  split; [reflexivity | split; [reflexivity | split; [exact Hmove |]]].
  rewrite Hmove. simpl. intros H. inversion H as [Htop]. lra.
Qed.

(** C4 (amended): the move handlers of the joystick and of the d-pad never
    touch the cached rectangle, nor the distance computed with it: a move
    either returns with both unchanged, or (pressed with no rectangle cached,
    which no press leaves behind) throws before writing anything.  The move
    handler of the slider reads the rectangle again on every move while
    pressed and leaves it alone otherwise. *)
Theorem move_and_cached_rectangle :
  (forall (e : PointerEvent) (j : Joystick.JoysickController),
      match Joystick.onJoysickMove e j with
      | Some (j', _) =>
          Joystick.baseRect j' = Joystick.baseRect j /\
          Joystick.thumbMaxDistance j' = Joystick.thumbMaxDistance j
      | None => Joystick.isPressed j = true /\ Joystick.baseRect j = None
      end) /\
  (forall (e : PointerEvent) (d : Dpad.DpadController),
      match Dpad.onDpadMove e d with
      | Some (d', _) =>
          Dpad.baseRect d' = Dpad.baseRect d /\
          Dpad.inputRegisterDistance d' = Dpad.inputRegisterDistance d
      | None => Dpad.isPressed d = true /\ Dpad.baseRect d = None
      end) /\
  (forall (rect : DOMRect) (e : PointerEvent) (s : Slider.RetrackableSlider),
      Slider.baseRect (fst (Slider.onSliderMove rect e s)) =
        if Slider.isPressed s then Some rect else Slider.baseRect s).
Proof.
  split; [| split].
  - intros e j. unfold Joystick.onJoysickMove.
    destruct (Joystick.isPressed j) eqn:Hp; simpl.
    + destruct (Joystick.baseRect j) eqn:Hr; simpl; auto.
    + auto.
  - intros e d. unfold Dpad.onDpadMove.
    destruct (Dpad.isPressed d) eqn:Hp; simpl.
    + destruct (Dpad.baseRect d) eqn:Hr; simpl; auto.
      destruct (Dpad.direction_eqb _ _); simpl; auto.
    + auto.
  - intros rect e s. unfold Slider.onSliderMove.
    destruct (Slider.isPressed s) eqn:Hp; simpl.
    + destruct (Reqb _ _); reflexivity.
    + reflexivity.
Qed.

End RectangleFacts.

(** * Further properties of the handlers *)

(** ** Button: runs of events *)

Module ButtonTraces.
Import Button.

(** What the listeners of [init] do with one event, by its type and by
    where its target lies. *)
Lemma dispatch_init (ev : string) (target : node) (b : ButtonController) :
  dispatch init ev target b =
    if contains Container target then
      if String.eqb "pointerup" ev then onButtonUp b
      else if String.eqb "pointerdown" ev then onButtonDown b
      else if existsb (String.eqb ev)
                      [ "touchstart"; "touchmove"; "touchend"; "touchcancel";
                        "selectstart"; "contextmenu" ]%string
           then (b, [PreventDefault])
           else (b, [])
    else (b, []).
Proof.
  unfold init. cbn [app map dispatch on_event on_node run].
  destruct (contains Container target).
  - rewrite !andb_true_r.
    destruct (String.eqb "pointerup" ev) eqn:E1.
    { apply String.eqb_eq in E1. subst ev. cbn.
      destruct (onButtonUp b) as [b1 t1]. now rewrite app_nil_r. }
    destruct (String.eqb "pointerdown" ev) eqn:E2.
    { apply String.eqb_eq in E2. subst ev. cbn.
      destruct (onButtonDown b) as [b1 t1]. now rewrite app_nil_r. }
    cbn [existsb]. rewrite !(String.eqb_sym ev).
    destruct (String.eqb "touchstart" ev) eqn:E3.
    { apply String.eqb_eq in E3. subst ev. reflexivity. }
    destruct (String.eqb "touchmove" ev) eqn:E4.
    { apply String.eqb_eq in E4. subst ev. reflexivity. }
    destruct (String.eqb "touchend" ev) eqn:E5.
    { apply String.eqb_eq in E5. subst ev. reflexivity. }
    destruct (String.eqb "touchcancel" ev) eqn:E6.
    { apply String.eqb_eq in E6. subst ev. reflexivity. }
    destruct (String.eqb "selectstart" ev) eqn:E7.
    { apply String.eqb_eq in E7. subst ev. reflexivity. }
    destruct (String.eqb "contextmenu" ev) eqn:E8.
    { apply String.eqb_eq in E8. subst ev. reflexivity. }
    reflexivity.
  - rewrite !andb_false_r. reflexivity.
Qed.

(** One event moves the button in one of four ways. *)
Lemma dispatch_init_cases (ev : string) (target : node) (b : ButtonController) :
  dispatch init ev target b = onButtonUp b \/
  dispatch init ev target b = onButtonDown b \/
  dispatch init ev target b = (b, [PreventDefault]) \/
  dispatch init ev target b = (b, []).
Proof.
  rewrite dispatch_init.
  destruct (contains Container target); [| auto].
  destruct (String.eqb "pointerup" ev); [auto |].
  destruct (String.eqb "pointerdown" ev); [auto |].
  destruct (existsb _ _); auto.
Qed.

(** X1: the release listener sits on the container too.  On a held button a
    pointer-up whose target is anywhere inside the container, on the button
    or off it, releases the button and fires [onRelease] once. *)
Theorem release_anywhere_in_container :
  forall (b : ButtonController) (target : node),
    isPressed b = true ->
    contains Container target = true ->
    dispatch init "pointerup" target b =
      (mkButton (onPressCallback b) (onReleaseCallback b) "0.6" false,
       [Release (onReleaseCallback b)]).
Proof.
  intros b target Hheld Hin.
  rewrite dispatch_init, Hin. cbn.
  unfold onButtonUp. rewrite Hheld. reflexivity.
Qed.

Lemma release_anywhere_in_container_witness :
  isPressed Samples.heldButton = true /\
  contains Container (Inside 7) = true /\
  dispatch init "pointerup" (Inside 7) Samples.heldButton =
    (mkButton (HostFn "press") (HostFn "release") "0.6" false,
     [Release (HostFn "release")]).
Proof.
  split; [reflexivity | split; [reflexivity |]].
  apply (release_anywhere_in_container Samples.heldButton (Inside 7));
    reflexivity.
Defined.

(** X2: only pointer-down and pointer-up move the button.  An event of any
    other type, pointer-cancel and pointer-leave among them, leaves every
    field as it was and calls neither callback, so a held button stays held;
    an event whose target is outside the container does nothing at all. *)
Theorem other_events_leave_button_alone :
  forall (ev : string) (target : node) (b : ButtonController),
    ev <> "pointerup"%string ->
    ev <> "pointerdown"%string ->
    fst (dispatch init ev target b) = b /\
    filter (fun e => isPress e || isRelease e)%bool
           (snd (dispatch init ev target b)) = [] /\
    (forall n ev', dispatch init ev' (Outside n) b = (b, [])).
Proof.
  intros ev target b Hup Hdown.
  assert (E1 : String.eqb "pointerup" ev = false)
    by (apply String.eqb_neq; congruence).
  assert (E2 : String.eqb "pointerdown" ev = false)
    by (apply String.eqb_neq; congruence).
  split; [| split].
  - rewrite dispatch_init, E1, E2.
    destruct (contains Container target); [| reflexivity].
    destruct (existsb _ _); reflexivity.
  - rewrite dispatch_init, E1, E2.
    destruct (contains Container target); [| reflexivity].
    destruct (existsb _ _); reflexivity.
  - intros n ev'. rewrite dispatch_init. reflexivity.
Qed.

Lemma other_events_leave_button_alone_witness :
  "pointercancel"%string <> "pointerup"%string /\
  "pointercancel"%string <> "pointerdown"%string /\
  fst (dispatch init "pointercancel" Base Samples.heldButton)
    = Samples.heldButton.
Proof.
  assert (H1 : "pointercancel"%string <> "pointerup"%string) by discriminate.
  assert (H2 : "pointercancel"%string <> "pointerdown"%string) by discriminate.
  split; [exact H1 | split; [exact H2 |]].
  apply (other_events_leave_button_alone "pointercancel" Base
           Samples.heldButton H1 H2).
Defined.

(** The effect of one event on what the next callback has to be. *)
Lemma dispatch_keeps_turns (ev : string) (target : node) (b : ButtonController)
      (rest : list effect) :
  alternates (negb (isPressed b)) (snd (dispatch init ev target b) ++ rest) =
    alternates (negb (isPressed (fst (dispatch init ev target b)))) rest.
Proof.
  destruct (dispatch_init_cases ev target b) as [H | [H | [H | H]]];
    rewrite H; clear H.
  - unfold onButtonUp. destruct (isPressed b) eqn:E; simpl; now rewrite ?E.
  - unfold onButtonDown. destruct (isPressed b) eqn:E; simpl; now rewrite ?E.
  - reflexivity.
  - reflexivity.
Qed.

(** X3: over any run of events the two callbacks take turns: [onPress] is
    never called twice without an [onRelease] between the two calls, nor the
    other way round, and on a released button the first call is [onPress]. *)
Theorem callbacks_take_turns :
  forall (evs : list (string * node)) (b : ButtonController),
    alternates (negb (isPressed b)) (snd (dispatches evs b)) = true.
Proof.
  induction evs as [| [ev target] rest IH]; intros b.
  - reflexivity.
  - cbn [dispatches].
    pose proof (dispatch_keeps_turns ev target b) as Hstep.
    destruct (dispatch init ev target b) as [b1 t1].
    specialize (IH b1).
    destruct (dispatches rest b1) as [b2 t2].
    cbn [snd fst] in *. rewrite Hstep. exact IH.
Qed.

Lemma dispatch_keeps_settled (p r : callback) (ev : string) (target : node)
      (b : ButtonController) :
  settled p r b ->
  settled p r (fst (dispatch init ev target b)) /\
  Forall (fun e => e = Press p \/ e = Release r \/ e = PreventDefault)
         (snd (dispatch init ev target b)).
Proof.
  intros (Hp & Hr & Ho).
  destruct (dispatch_init_cases ev target b) as [H | [H | [H | H]]];
    rewrite H; clear H.
  - unfold onButtonUp. destruct (isPressed b) eqn:E; simpl.
    + split; [repeat split; auto |].
      constructor; [right; left; now rewrite Hr | constructor].
    + split; [repeat split; auto; now rewrite E | constructor].
  - unfold onButtonDown. destruct (isPressed b) eqn:E; simpl.
    + split; [repeat split; auto; now rewrite E | constructor].
    + split; [repeat split; auto |].
      constructor; [left; now rewrite Hp | constructor].
  - simpl. split; [repeat split; auto |].
    constructor; [right; right; reflexivity | constructor].
  - simpl. split; [repeat split; auto | constructor].
Qed.

(** X4: a button built from any options, after any run of events: the
    opacity of its element is 0.8 exactly while it is held and 0.6 otherwise,
    and every callback that was called along the run is the one the options
    supplied (the constructor's logger where they supplied none). *)
Theorem button_run_invariant :
  forall (options : ButtonOptions) (evs : list (string * node)),
    let p := orDefault (opt_onPressCallback options) DefaultLogger in
    let r := orDefault (opt_onReleaseCallback options) DefaultLogger in
    let b := fst (dispatches evs (constructor options)) in
    opacity b = (if isPressed b then "0.8" else "0.6")%string /\
    onPressCallback b = p /\
    onReleaseCallback b = r /\
    Forall (fun e => e = Press p \/ e = Release r \/ e = PreventDefault)
           (snd (dispatches evs (constructor options))).
Proof.
  intros options evs p r.
  assert (Hgen : forall evs b,
             settled p r b ->
             settled p r (fst (dispatches evs b)) /\
             Forall (fun e => e = Press p \/ e = Release r \/ e = PreventDefault)
                    (snd (dispatches evs b))).
  { clear evs. induction evs as [| [ev target] rest IH]; intros b Hb.
    - simpl. split; [exact Hb | constructor].
    - cbn [dispatches].
      destruct (dispatch_keeps_settled p r ev target b Hb) as [Hb1 Ht1].
      destruct (dispatch init ev target b) as [b1 t1]. cbn [fst snd] in *.
      destruct (IH b1 Hb1) as [Hb2 Ht2].
      destruct (dispatches rest b1) as [b2 t2]. cbn [fst snd] in *.
      split; [exact Hb2 | apply Forall_app; split; assumption]. }
  destruct (Hgen evs (constructor options)) as [(Hp & Hr & Ho) Ht].
  { repeat split; reflexivity. }
  cbv zeta. repeat split; assumption.
Qed.

End ButtonTraces.

(** ** Retractable slider: positions and runs *)

Module SliderBehaviour.
Import Slider.

Lemma onSliderMove_stored (rect : DOMRect) (e : PointerEvent)
      (s : RetrackableSlider) :
  isPressed s = true ->
  valuePercent (fst (onSliderMove rect e s)) =
    Math_round (Rmax 0 (Rmin 100 (rawValue (direction_ s) rect e))) /\
  sliderPercent (fst (onSliderMove rect e s)) =
    (if Reqb (valuePercent s)
             (Math_round (Rmax 0 (Rmin 100 (rawValue (direction_ s) rect e))))
     then sliderPercent s
     else Math_round (Rmax 0 (Rmin 100 (rawValue (direction_ s) rect e)))).
Proof.
  intros Hp. rewrite (SliderFacts.onSliderMove_pressed rect e s Hp). cbv zeta.
  destruct (Reqb _ _) eqn:E; simpl; [| split; reflexivity].
  apply Reqb_true in E. split; [exact E | reflexivity].
Qed.

Lemma clamp_percent_mono (a b : R) :
  a <= b -> Rmax 0 (Rmin 100 a) <= Rmax 0 (Rmin 100 b).
Proof.
  intros H. apply Rle_max_compat_l. apply Rle_min_compat_l. exact H.
Qed.

(** X5: the value follows the pointer monotonically.  On a pressed slider
    measured on a sized rectangle, a pointer further down never gives a
    larger value on a vertical slider, and a pointer further right never
    gives a smaller one on a horizontal slider. *)
Theorem slider_value_is_monotone :
  forall (rect : DOMRect) (e1 e2 : PointerEvent) (s : RetrackableSlider),
    isPressed s = true ->
    sized rect ->
    (direction_ s = vertical ->
     clientY e1 <= clientY e2 ->
     valuePercent (fst (onSliderMove rect e2 s))
       <= valuePercent (fst (onSliderMove rect e1 s))) /\
    (direction_ s = horizontal ->
     clientX e1 <= clientX e2 ->
     valuePercent (fst (onSliderMove rect e1 s))
       <= valuePercent (fst (onSliderMove rect e2 s))).
Proof.
  intros rect e1 e2 s Hp [Hw Hh].
  destruct (onSliderMove_stored rect e1 s Hp) as [H1 _].
  destruct (onSliderMove_stored rect e2 s Hp) as [H2 _].
  rewrite H1, H2. split; intros Hdir Hle; rewrite Hdir; simpl rawValue;
    apply Math_round_mono, clamp_percent_mono.
  - assert (Hq : (clientY e1 - rect_top rect) / rect_height rect
                 <= (clientY e2 - rect_top rect) / rect_height rect).
    { apply Rmult_le_compat_r; [| lra].
      left. now apply Rinv_0_lt_compat. }
    lra.
  - assert (Hq : (clientX e1 - rect_left rect) / rect_width rect
                 <= (clientX e2 - rect_left rect) / rect_width rect).
    { apply Rmult_le_compat_r; [| lra].
      left. now apply Rinv_0_lt_compat. }
    lra.
Qed.

Lemma slider_value_is_monotone_witness :
  isPressed Samples.draggedSlider = true /\
  sized Samples.rectAtPress /\
  direction_ Samples.draggedSlider = vertical /\
  clientY (Samples.moveTo 5 50) <= clientY (Samples.moveTo 5 120) /\
  valuePercent (fst (onSliderMove Samples.rectAtPress (Samples.moveTo 5 120)
                                  Samples.draggedSlider))
    <= valuePercent (fst (onSliderMove Samples.rectAtPress (Samples.moveTo 5 50)
                                       Samples.draggedSlider)).
Proof.
  assert (Hs : sized Samples.rectAtPress) by (split; simpl; lra).
  assert (Hy : clientY (Samples.moveTo 5 50) <= clientY (Samples.moveTo 5 120))
    by (simpl; lra).
  split; [reflexivity | split; [exact Hs | split; [reflexivity | split]]].
  - exact Hy.
  - destruct (slider_value_is_monotone Samples.rectAtPress (Samples.moveTo 5 50)
                (Samples.moveTo 5 120) Samples.draggedSlider eq_refl Hs)
      as [Hvert _].
    apply Hvert; [reflexivity | exact Hy].
Defined.

Lemma quotient_nonpos (a b : R) : 0 < b -> a <= 0 -> a / b <= 0.
Proof.
  intros Hb Ha. unfold Rdiv.
  pose proof (Rinv_0_lt_compat b Hb) as Hi. nra.
Qed.

Lemma quotient_ge_one (a b : R) : 0 < b -> b <= a -> 1 <= a / b.
Proof.
  intros Hb Ha. unfold Rdiv.
  pose proof (Rinv_0_lt_compat b Hb) as Hi.
  replace 1 with (b * / b) by (field; lra). nra.
Qed.

Lemma round_clamp_high (v : R) :
  100 <= v -> Math_round (Rmax 0 (Rmin 100 v)) = 100.
Proof.
  intros H. rewrite Rmin_left by lra. rewrite Rmax_right by lra.
  apply (Math_round_IZR 100).
Qed.

Lemma round_clamp_low (v : R) :
  v <= 0 -> Math_round (Rmax 0 (Rmin 100 v)) = 0.
Proof.
  intros H. rewrite Rmin_right by lra. rewrite Rmax_left by lra.
  apply (Math_round_IZR 0).
Qed.

(** X6: the ends of the track.  On a pressed slider measured on a sized
    rectangle, a pointer at or beyond the top edge of a vertical slider reads
    100 and one at or beyond the bottom edge reads 0; on a horizontal slider
    the left edge and everything left of it reads 0, the right edge and
    everything right of it 100. *)
Theorem slider_ends :
  forall (rect : DOMRect) (e : PointerEvent) (s : RetrackableSlider),
    isPressed s = true ->
    sized rect ->
    let v := valuePercent (fst (onSliderMove rect e s)) in
    (direction_ s = vertical ->
     (clientY e <= rect_top rect -> v = 100) /\
     (rect_top rect + rect_height rect <= clientY e -> v = 0)) /\
    (direction_ s = horizontal ->
     (clientX e <= rect_left rect -> v = 0) /\
     (rect_left rect + rect_width rect <= clientX e -> v = 100)).
Proof.
  intros rect e s Hp [Hw Hh] v.
  destruct (onSliderMove_stored rect e s Hp) as [Hv _].
  unfold v. rewrite Hv. clear v Hv.
  split; intros Hdir; rewrite Hdir; simpl rawValue; split; intros Hpos.
  - apply round_clamp_high.
    pose proof (quotient_nonpos (clientY e - rect_top rect) (rect_height rect) Hh).
    lra.
  - apply round_clamp_low.
    pose proof (quotient_ge_one (clientY e - rect_top rect) (rect_height rect) Hh).
    lra.
  - apply round_clamp_low.
    pose proof (quotient_nonpos (clientX e - rect_left rect) (rect_width rect) Hw).
    lra.
  - apply round_clamp_high.
    pose proof (quotient_ge_one (clientX e - rect_left rect) (rect_width rect) Hw).
    lra.
Qed.

Lemma slider_ends_witness :
  isPressed Samples.draggedSlider = true /\
  sized Samples.rectAtPress /\
  direction_ Samples.draggedSlider = vertical /\
  rect_top Samples.rectAtPress + rect_height Samples.rectAtPress
    <= clientY (Samples.moveTo 5 260) /\
  valuePercent (fst (onSliderMove Samples.rectAtPress (Samples.moveTo 5 260)
                                  Samples.draggedSlider)) = 0.
Proof.
  assert (Hs : sized Samples.rectAtPress) by (split; simpl; lra).
  assert (Hy : rect_top Samples.rectAtPress + rect_height Samples.rectAtPress
               <= clientY (Samples.moveTo 5 260)) by (simpl; lra).
  split; [reflexivity | split; [exact Hs | split; [reflexivity | split]]].
  - exact Hy.
  - destruct (slider_ends Samples.rectAtPress (Samples.moveTo 5 260)
                Samples.draggedSlider eq_refl Hs) as [Hvert _].
    destruct (Hvert eq_refl) as [_ Hbottom]. apply Hbottom. exact Hy.
Defined.

(** X7: a press does not measure.  Pressing the slider calls
    [onSlideCallback] once with the value stored before the press, whatever
    the position of the pointer, and stores nothing; so the press that
    follows a release reports 0. *)
Theorem slider_press_reports_stored_value :
  forall (rect : DOMRect) (e : PointerEvent) (s : RetrackableSlider)
         (f : callback),
    onSlideCallback s = Some f ->
    snd (onSliderDown rect e s) =
      [PreventDefault; SetPointerCapture (pointerId e);
       Slide f (valuePercent s)] /\
    valuePercent (fst (onSliderDown rect e s)) = valuePercent s /\
    isPressed (fst (onSliderDown rect e s)) = true /\
    baseRect (fst (onSliderDown rect e s)) = Some rect /\
    snd (onSliderDown rect e (fst (onSliderUp s))) =
      [PreventDefault; SetPointerCapture (pointerId e); Slide f 0].
Proof.
  intros rect e s f Hcb. unfold onSliderDown. simpl. rewrite Hcb. simpl.
  repeat split.
  unfold onSliderUp. simpl.
  destruct (Reqb (valuePercent s) 0) eqn:E; simpl; rewrite Hcb; simpl.
  - apply Reqb_true in E. now rewrite E.
  - reflexivity.
Qed.

Lemma slider_press_reports_stored_value_witness :
  onSlideCallback Samples.draggedSlider = Some (HostFn "slide") /\
  snd (onSliderDown Samples.rectAtPress (Samples.moveTo 5 0)
                    Samples.draggedSlider) =
    [PreventDefault; SetPointerCapture 1; Slide (HostFn "slide") 40].
Proof.
  split; [reflexivity |].
  apply (slider_press_reports_stored_value Samples.rectAtPress
           (Samples.moveTo 5 0) Samples.draggedSlider (HostFn "slide") eq_refl).
Defined.



(** X9: a released slider ignores the pointer.  Between a release and the
    next press any number of moves leave every field as the release left it
    (the value at 0, the cached rectangle not read again) and call no
    callback; each still prevents the default of its event. *)
Theorem slider_ignores_moves_after_release :
  forall (s : RetrackableSlider) (moves : list (DOMRect * PointerEvent)),
    steps (map (fun m => PointerMove (fst m) (snd m)) moves)
          (fst (onSliderUp s)) =
      (fst (onSliderUp s), repeat PreventDefault (List.length moves)) /\
    valuePercent (fst (onSliderUp s)) = 0.
Proof.
  intros s moves.
  assert (Hrel : isPressed (fst (onSliderUp s)) = false).
  { unfold onSliderUp. simpl. destruct (Reqb (valuePercent s) 0); reflexivity. }
  split.
  - generalize dependent (fst (onSliderUp s)). intros s0 Hs0.
    induction moves as [| [rect e] rest IH]; [reflexivity |].
    cbn [map steps step fst snd]. unfold onSliderMove at 1. rewrite Hs0.
    cbn [negb]. rewrite IH. reflexivity.
  - unfold onSliderUp. simpl.
    destruct (Reqb (valuePercent s) 0) eqn:E; simpl; [| reflexivity].
    now apply Reqb_true in E.
Qed.

Lemma slideValues_app (t1 t2 : list effect) :
  slideValues (t1 ++ t2) = slideValues t1 ++ slideValues t2.
Proof.
  induction t1 as [| e t1 IH]; [reflexivity |].
  destruct e; simpl; now rewrite IH.
Qed.

Lemma wholePercent_0 : wholePercent 0.
Proof. exists 0%Z. split; [reflexivity | lia]. Qed.

(** One input keeps the stored value a whole percentage, the bar drawn at
    that value, and hands only whole percentages to the slide callback. *)
Lemma step_keeps_whole (i : input) (s : RetrackableSlider) :
  wholePercent (valuePercent s) ->
  sliderPercent s = valuePercent s ->
  wholePercent (valuePercent (fst (step i s))) /\
  sliderPercent (fst (step i s)) = valuePercent (fst (step i s)) /\
  Forall wholePercent (slideValues (snd (step i s))).
Proof.
  intros Hv Hbar. destruct i as [rect e | rect e | | | rect |]; cbn [step].
  - unfold onSliderDown. cbn.
    destruct (onSlideCallback s); cbn; repeat split; auto.
  - unfold onSliderMove. destruct (isPressed s) eqn:Hp; cbn [negb].
    + set (value := Math_round _).
      assert (Hvalue : wholePercent value)
        by apply SliderFacts.round_clamped_percent.
      destruct (Reqb _ value); cbn.
      * repeat split; auto.
      * destruct (onSlideCallback s); cbn; repeat split; auto.
    + cbn. repeat split; auto.
  - unfold onSliderUp. cbn.
    destruct (Reqb (valuePercent s) 0); cbn.
    + repeat split; auto.
    + destruct (onReleaseCallback s); cbn;
        (split; [apply wholePercent_0 | split; [reflexivity | constructor]]).
  - unfold onSliderUp. cbn.
    destruct (Reqb (valuePercent s) 0); cbn.
    + repeat split; auto.
    + destruct (onReleaseCallback s); cbn;
        (split; [apply wholePercent_0 | split; [reflexivity | constructor]]).
  - cbn. repeat split; auto.
  - cbn. repeat split; auto.
Qed.

(** X10: a slider built from any options, after any run of presses, moves
    (each measured on a sized rectangle), releases, cancels and resizes: the
    stored value is one of the integers 0..100, the bar is drawn at exactly
    that percentage, and every value [onSlideCallback] received along the run
    was one of those integers. *)
Theorem slider_run_invariant :
  forall (options : RetrackableSliderOptions) (inputs : list input),
    Forall measurable inputs ->
    wholePercent (valuePercent (fst (steps inputs (constructor options)))) /\
    sliderPercent (fst (steps inputs (constructor options))) =
      valuePercent (fst (steps inputs (constructor options))) /\
    Forall wholePercent
           (slideValues (snd (steps inputs (constructor options)))).
Proof.
  intros options inputs _.
  assert (Hgen : forall inputs s,
             wholePercent (valuePercent s) ->
             sliderPercent s = valuePercent s ->
             wholePercent (valuePercent (fst (steps inputs s))) /\
             sliderPercent (fst (steps inputs s)) =
               valuePercent (fst (steps inputs s)) /\
             Forall wholePercent (slideValues (snd (steps inputs s)))).
  { clear inputs. induction inputs as [| i rest IH]; intros s Hv Hbar.
    - cbn. repeat split; auto.
    - cbn [steps].
      destruct (step_keeps_whole i s Hv Hbar) as (Hv1 & Hbar1 & Ht1).
      destruct (step i s) as [s1 t1]. cbn [fst snd] in *.
      destruct (IH s1 Hv1 Hbar1) as (Hv2 & Hbar2 & Ht2).
      destruct (steps rest s1) as [s2 t2]. cbn [fst snd] in *.
      rewrite slideValues_app. repeat split; auto.
      apply Forall_app. split; assumption. }
  apply Hgen; [apply wholePercent_0 | reflexivity].
Qed.

Lemma slider_run_invariant_witness :
  Forall measurable
         [PointerDown Samples.rectAtPress (Samples.moveTo 5 50);
          PointerMove Samples.rectAfterScroll (Samples.moveTo 5 80);
          PointerCancel] /\
  wholePercent
    (valuePercent
       (fst (steps [PointerDown Samples.rectAtPress (Samples.moveTo 5 50);
                    PointerMove Samples.rectAfterScroll (Samples.moveTo 5 80);
                    PointerCancel]
                   (constructor (mkOptions None None None None))))).
Proof.
  assert (Hm : Forall measurable
                 [PointerDown Samples.rectAtPress (Samples.moveTo 5 50);
                  PointerMove Samples.rectAfterScroll (Samples.moveTo 5 80);
                  PointerCancel]).
  { repeat constructor; simpl; lra. }
  split; [exact Hm |].
  apply (slider_run_invariant (mkOptions None None None None) _ Hm).
Defined.

End SliderBehaviour.

(** ** Rounding to two decimals *)

Lemma toFixed2_odd (x : R) : toFixed2 (- x) = - toFixed2 x.
Proof.
  unfold toFixed2.
  destruct (Rle_dec 0 (- x)) as [Hn | Hn]; destruct (Rle_dec 0 x) as [Hp | Hp].
  - assert (Hx : x = 0) by lra. subst x.
    replace (- 0 * 100 + / 2) with (0 * 100 + / 2) by lra.
    rewrite (Int_part_between (0 * 100 + / 2) 0) by lra. lra.
  - lra.
  - replace (- - x * 100 + / 2) with (x * 100 + / 2) by lra. reflexivity.
  - lra.
Qed.

(** A number of [-1, 1] rounds to a hundredth of [-1, 1]. *)
Lemma toFixed2_unit_grid (x : R) :
  -1 <= x <= 1 ->
  exists n : Z, toFixed2 x = IZR n / 100 /\ (-100 <= n <= 100)%Z.
Proof.
  intros [Hlo Hhi]. unfold toFixed2.
  destruct (Rle_dec 0 x) as [Hx | Hx].
  - destruct (Int_part_bounds (x * 100 + / 2)) as [H1 H2].
    exists (Int_part (x * 100 + / 2)). split; [reflexivity |]. split.
    + apply Z.lt_succ_r, lt_IZR. rewrite succ_IZR. lra.
    + apply Z.lt_succ_r, lt_IZR. rewrite succ_IZR. lra.
  - destruct (Int_part_bounds (- x * 100 + / 2)) as [H1 H2].
    exists (- Int_part (- x * 100 + / 2))%Z. split.
    + rewrite opp_IZR. lra.
    + assert (Hb : (0 <= Int_part (- x * 100 + / 2) <= 100)%Z).
      { split.
        - apply Z.lt_succ_r, lt_IZR. rewrite succ_IZR. lra.
        - apply Z.lt_succ_r, lt_IZR. rewrite succ_IZR. lra. }
      lia.
Qed.

Lemma clamp_unit_bounds (v : R) : -1 <= Rmax (-1) (Rmin 1 v) <= 1.
Proof.
  split.
  - apply Rmax_l.
  - apply Rmax_lub; [lra | apply Rmin_l].
Qed.

Lemma clamp_unit_odd (v : R) :
  Rmax (-1) (Rmin 1 (- v)) = - Rmax (-1) (Rmin 1 v).
Proof.
  destruct (Rle_dec v (-1)) as [Hlow | Hlow].
  - rewrite (Rmin_left 1 (- v)) by lra. rewrite (Rmax_right (-1) 1) by lra.
    rewrite (Rmin_right 1 v) by lra. rewrite (Rmax_left (-1) v) by lra. lra.
  - destruct (Rle_dec 1 v) as [Hhigh | Hhigh].
    + rewrite (Rmin_right 1 (- v)) by lra.
      rewrite (Rmax_left (-1) (- v)) by lra.
      rewrite (Rmin_left 1 v) by lra. rewrite (Rmax_right (-1) 1) by lra. lra.
    + rewrite !clamp_unit_id by lra. reflexivity.
Qed.

Lemma hypot_opp (x y : R) : Math_hypot (- x) (- y) = Math_hypot x y.
Proof.
  unfold Math_hypot. f_equal. ring.
Qed.


Lemma rotateBack_opp (r x y : R) :
  rotateBack r (- x) (- y) =
    (- fst (rotateBack r x y), - snd (rotateBack r x y)).
Proof. unfold rotateBack. simpl. f_equal; ring. Qed.

Lemma hypot_rotateBack (r x y : R) :
  Math_hypot (fst (rotateBack r x y)) (snd (rotateBack r x y)) = Math_hypot x y.
Proof.
  unfold Math_hypot at 1. rewrite rotateBack_norm. reflexivity.
Qed.

Lemma hypot_scale (k x y : R) :
  0 <= k -> Math_hypot (x * k) (y * k) = k * Math_hypot x y.
Proof.
  intros Hk. unfold Math_hypot.
  replace (x * k * (x * k) + y * k * (y * k)) with (k * k * (x * x + y * y))
    by ring.
  rewrite sqrt_mult by nra. now rewrite sqrt_square.
Qed.


(** ** Joystick: the reported vector and runs *)

Module JoystickBehaviour.
Import Joystick.

Lemma thumbOffset_unfold (tmd rot x y : R) :
  thumbOffset tmd rot (x, y) =
    let k := if Rltb tmd (Math_hypot x y) then tmd / Math_hypot x y else 1 in
    if Reqb rot 0 then (x * k, y * k) else rotateBack rot (x * k) (y * k).
Proof.
  unfold thumbOffset. cbn [fst snd]. cbv zeta.
  destruct (Rltb tmd (Math_hypot x y)); destruct (Reqb rot 0); cbn [negb];
    rewrite ?Rmult_1_r; reflexivity.
Qed.

(** The thumb is drawn as far from the centre as the pointer is, but no
    further than [maxDistance]. *)
Lemma thumbOffset_length (tmd rot x y : R) :
  0 <= tmd ->
  Math_hypot (fst (thumbOffset tmd rot (x, y))) (snd (thumbOffset tmd rot (x, y)))
  = Rmin (Math_hypot x y) tmd.
Proof.
  intros Htmd. rewrite thumbOffset_unfold. cbv zeta.
  set (h := Math_hypot x y).
  assert (Hlen : forall k, 0 <= k ->
                 Math_hypot (fst (if Reqb rot 0 then (x * k, y * k)
                                  else rotateBack rot (x * k) (y * k)))
                            (snd (if Reqb rot 0 then (x * k, y * k)
                                  else rotateBack rot (x * k) (y * k)))
                 = k * h).
  { intros k Hk. destruct (Reqb rot 0); cbn [fst snd].
    - now apply hypot_scale.
    - rewrite hypot_rotateBack. now apply hypot_scale. }
  destruct (Rltb tmd h) eqn:E.
  - apply Rltb_true in E. rewrite Hlen.
    + rewrite Rmin_right by lra. field. lra.
    + apply Rmult_le_pos; [lra |]. left. apply Rinv_0_lt_compat. lra.
  - apply Rltb_false in E. rewrite Hlen by lra.
    rewrite Rmin_left by lra. ring.
Qed.

Lemma thumbOffset_opp (tmd rot x y : R) :
  thumbOffset tmd rot (- x, - y) =
    (- fst (thumbOffset tmd rot (x, y)), - snd (thumbOffset tmd rot (x, y))).
Proof.
  rewrite !thumbOffset_unfold. cbv zeta. rewrite hypot_opp.
  set (k := if Rltb tmd (Math_hypot x y) then _ else _).
  destruct (Reqb rot 0); cbn [fst snd].
  - f_equal; ring.
  - replace (- x * k) with (- (x * k)) by ring.
    replace (- y * k) with (- (y * k)) by ring.
    apply rotateBack_opp.
Qed.

Lemma normalize_odd (tmd v : R) : normalize tmd (- v) = - normalize tmd v.
Proof.
  unfold normalize.
  replace (- v / tmd) with (- (v / tmd)) by (unfold Rdiv; ring).
  now rewrite clamp_unit_odd, toFixed2_odd.
Qed.

Lemma rawDisplacement_mirrored (rect : DOMRect) (e : PointerEvent) :
  rawDisplacement rect (mirrored rect e) =
    (- fst (rawDisplacement rect e), - snd (rawDisplacement rect e)).
Proof.
  unfold rawDisplacement, mirrored. cbn. f_equal; lra.
Qed.

(** X11: every report lies on the grid.  On a pressed joystick with a
    positive travel, a move calls [onInputCallback] once with two numbers
    that are whole hundredths between -1 and 1. *)
Theorem joystick_report_on_grid :
  forall (e : PointerEvent) (j : JoysickController) (rect : DOMRect),
    isPressed j = true ->
    baseRect j = Some rect ->
    0 < thumbMaxDistance j ->
    exists (nx ny : Z) (j' : JoysickController),
      onJoysickMove e j =
        Some (j', [Input (onInputCallback j) (IZR nx / 100) (IZR ny / 100)]) /\
      (-100 <= nx <= 100)%Z /\ (-100 <= ny <= 100)%Z.
Proof.
  intros e j rect Hp Hr _.
  rewrite (JoystickFacts.onJoysickMove_pressed e j rect Hp Hr). cbv zeta.
  set (d := thumbOffset _ _ _).
  destruct (toFixed2_unit_grid _ (clamp_unit_bounds (fst d / thumbMaxDistance j)))
    as (nx & Hnx & Hbx).
  destruct (toFixed2_unit_grid _ (clamp_unit_bounds (snd d / thumbMaxDistance j)))
    as (ny & Hny & Hby).
  exists nx, ny. eexists. unfold normalize. rewrite Hnx, Hny.
  split; [reflexivity | split; assumption].
Qed.

Lemma joystick_report_on_grid_witness :
  isPressed Samples.uprightJoystick = true /\
  baseRect Samples.uprightJoystick = Some Samples.joystickRect /\
  0 < thumbMaxDistance Samples.uprightJoystick /\
  exists (nx ny : Z) (j' : JoysickController),
    onJoysickMove (Samples.moveTo 60 70) Samples.uprightJoystick =
      Some (j', [Input (HostFn "input") (IZR nx / 100) (IZR ny / 100)]) /\
    (-100 <= nx <= 100)%Z /\ (-100 <= ny <= 100)%Z.
Proof.
  assert (Ht : 0 < thumbMaxDistance Samples.uprightJoystick) by (simpl; lra).
  split; [reflexivity | split; [reflexivity | split; [exact Ht |]]].
  exact (joystick_report_on_grid (Samples.moveTo 60 70) Samples.uprightJoystick
           Samples.joystickRect eq_refl eq_refl Ht).
Defined.

(** X12: the thumb never leaves the disc.  After a move on a pressed
    joystick the thumb is drawn at the pointer's own distance from the
    centre when that is within [thumbMaxDistance], and at exactly
    [thumbMaxDistance] when the pointer is further out, whatever the
    rotation. *)
Theorem joystick_thumb_stays_on_disc :
  forall (e : PointerEvent) (j : JoysickController) (rect : DOMRect),
    isPressed j = true ->
    baseRect j = Some rect ->
    0 <= thumbMaxDistance j ->
    exists (a b : R) (j' : JoysickController) (t : list effect),
      onJoysickMove e j = Some (j', t) /\
      thumbTransform j' = MovedBy a b /\
      Math_hypot a b =
        Rmin (Math_hypot (fst (rawDisplacement rect e))
                         (snd (rawDisplacement rect e)))
             (thumbMaxDistance j) /\
      Math_hypot a b <= thumbMaxDistance j.
Proof.
  intros e j rect Hp Hr Htmd.
  rewrite (JoystickFacts.onJoysickMove_pressed e j rect Hp Hr). cbv zeta.
  do 4 eexists. split; [reflexivity |]. split; [reflexivity |].
  rewrite (surjective_pairing (rawDisplacement rect e)).
  rewrite thumbOffset_length by exact Htmd. cbn [fst snd].
  split; [reflexivity | apply Rmin_r].
Qed.

Lemma joystick_thumb_stays_on_disc_witness :
  isPressed Samples.turnedJoystick = true /\
  baseRect Samples.turnedJoystick = Some Samples.joystickRect /\
  0 <= thumbMaxDistance Samples.turnedJoystick /\
  exists (a b : R) (j' : JoysickController) (t : list effect),
    onJoysickMove (Samples.moveTo 250 50) Samples.turnedJoystick = Some (j', t) /\
    thumbTransform j' = MovedBy a b /\
    Math_hypot a b <= thumbMaxDistance Samples.turnedJoystick.
Proof.
  assert (Ht : 0 <= thumbMaxDistance Samples.turnedJoystick) by (simpl; lra).
  split; [reflexivity | split; [reflexivity | split; [exact Ht |]]].
  destruct (joystick_thumb_stays_on_disc (Samples.moveTo 250 50)
              Samples.turnedJoystick Samples.joystickRect eq_refl eq_refl Ht)
    as (a & b & j' & t & Hmove & Hthumb & _ & Hle).
  exists a, b, j', t. repeat split; assumption.
Defined.

(** X13: the report is point-symmetric.  On a pressed joystick with a
    positive travel, the pointer mirrored through the centre of the cached
    rectangle is reported as the opposite vector, rounding included. *)
Theorem joystick_report_is_odd :
  forall (e : PointerEvent) (j : JoysickController) (rect : DOMRect),
    isPressed j = true ->
    baseRect j = Some rect ->
    0 < thumbMaxDistance j ->
    exists (x y : R) (j1 j2 : JoysickController),
      onJoysickMove e j = Some (j1, [Input (onInputCallback j) x y]) /\
      onJoysickMove (mirrored rect e) j =
        Some (j2, [Input (onInputCallback j) (- x) (- y)]).
Proof.
  intros e j rect Hp Hr _.
  rewrite (JoystickFacts.onJoysickMove_pressed e j rect Hp Hr).
  rewrite (JoystickFacts.onJoysickMove_pressed (mirrored rect e) j rect Hp Hr).
  cbv zeta. rewrite rawDisplacement_mirrored.
  destruct (rawDisplacement rect e) as [dx dy]. cbn [fst snd].
  rewrite thumbOffset_opp. cbn [fst snd]. rewrite !normalize_odd.
  do 4 eexists. split; reflexivity.
Qed.

Lemma joystick_report_is_odd_witness :
  isPressed Samples.uprightJoystick = true /\
  baseRect Samples.uprightJoystick = Some Samples.joystickRect /\
  0 < thumbMaxDistance Samples.uprightJoystick /\
  exists (x y : R) (j1 j2 : JoysickController),
    onJoysickMove (Samples.moveTo 60 70) Samples.uprightJoystick =
      Some (j1, [Input (HostFn "input") x y]) /\
    onJoysickMove (mirrored Samples.joystickRect (Samples.moveTo 60 70))
                  Samples.uprightJoystick =
      Some (j2, [Input (HostFn "input") (- x) (- y)]).
Proof.
  assert (Ht : 0 < thumbMaxDistance Samples.uprightJoystick) by (simpl; lra).
  split; [reflexivity | split; [reflexivity | split; [exact Ht |]]].
  exact (joystick_report_is_odd (Samples.moveTo 60 70) Samples.uprightJoystick
           Samples.joystickRect eq_refl eq_refl Ht).
Defined.

(** X14: the input callback is a stream, not an edge.  On a pressed joystick
    a second move to the same position calls [onInputCallback] again with the
    same two numbers and leaves the joystick as the first move left it. *)
Theorem joystick_repeated_move_reports_again :
  forall (e : PointerEvent) (j : JoysickController) (rect : DOMRect),
    isPressed j = true ->
    baseRect j = Some rect ->
    exists (x y : R) (j1 : JoysickController),
      onJoysickMove e j = Some (j1, [Input (onInputCallback j) x y]) /\
      onJoysickMove e j1 = Some (j1, [Input (onInputCallback j) x y]).
Proof.
  intros e j rect Hp Hr.
  rewrite (JoystickFacts.onJoysickMove_pressed e j rect Hp Hr). cbv zeta.
  match goal with
  | |- exists x y j1, Some (?s, [Input _ ?a ?b]) = _ /\ _ => exists a, b, s
  end.
  split; [reflexivity |].
  match goal with
  | |- onJoysickMove e ?s = _ =>
      rewrite (JoystickFacts.onJoysickMove_pressed e s rect eq_refl eq_refl)
  end.
  reflexivity.
Qed.

Lemma joystick_repeated_move_reports_again_witness :
  isPressed Samples.uprightJoystick = true /\
  baseRect Samples.uprightJoystick = Some Samples.joystickRect /\
  exists (x y : R) (j1 : JoysickController),
    onJoysickMove (Samples.moveTo 60 70) Samples.uprightJoystick =
      Some (j1, [Input (HostFn "input") x y]) /\
    onJoysickMove (Samples.moveTo 60 70) j1 =
      Some (j1, [Input (HostFn "input") x y]).
Proof.
  split; [reflexivity | split; [reflexivity |]].
  exact (joystick_repeated_move_reports_again (Samples.moveTo 60 70)
           Samples.uprightJoystick Samples.joystickRect eq_refl eq_refl).
Defined.



(** What the listeners of [init] do with one event, by its type. *)
Lemma deliver_init (ev : string) (dom : layout) (e : PointerEvent)
      (j : JoysickController) :
  deliver init ev dom e j =
    if String.eqb "pointerup" ev then Some (onJoysickUp j)
    else if String.eqb "pointercancel" ev then Some (onJoysickUp j)
    else if String.eqb "pointerdown" ev then onJoysickDown dom e j
    else if String.eqb "pointermove" ev then onJoysickMove e j
    else Some (j, []).
Proof.
  unfold init. cbn [deliver].
  destruct (String.eqb "pointerup" ev) eqn:E1.
  { apply String.eqb_eq in E1. subst ev. reflexivity. }
  destruct (String.eqb "pointercancel" ev) eqn:E2.
  { apply String.eqb_eq in E2. subst ev. reflexivity. }
  destruct (String.eqb "pointerdown" ev) eqn:E3.
  { apply String.eqb_eq in E3. subst ev. cbn -[onJoysickDown onJoysickMove].
    destruct (onJoysickDown dom e j) as [[j1 t1] |]; [| reflexivity].
    now rewrite app_nil_r. }
  destruct (String.eqb "pointermove" ev) eqn:E4.
  { apply String.eqb_eq in E4. subst ev. cbn -[onJoysickDown onJoysickMove].
    destruct (onJoysickMove e j) as [[j1 t1] |]; [| reflexivity].
    now rewrite app_nil_r. }
  reflexivity.
Qed.

Lemma onJoysickUp_consistent (j : JoysickController) :
  consistent j -> consistent (fst (onJoysickUp j)).
Proof.
  intros (Hr & _ & _). repeat split; auto.
Qed.

Lemma onJoysickMove_consistent (e : PointerEvent) (j : JoysickController) :
  consistent j ->
  exists j' t,
    onJoysickMove e j = Some (j', t) /\
    consistent j' /\
    onInputCallback j' = onInputCallback j /\
    reportsTo (onInputCallback j) t.
Proof.
  intros (Hr & Ho & Hc).
  destruct (isPressed j) eqn:Hp.
  - destruct (baseRect j) as [rect |] eqn:Hrect; [| contradiction].
    rewrite (JoystickFacts.onJoysickMove_pressed e j rect Hp Hrect). cbv zeta.
    eexists. eexists. split; [reflexivity |].
    split; [| split; [reflexivity | repeat constructor]].
    repeat split; cbn; [discriminate | exact Ho | discriminate].
  - unfold onJoysickMove. rewrite Hp. cbn.
    exists j, []. split; [reflexivity |].
    split; [| split; [reflexivity | constructor]].
    repeat split; auto. now rewrite Hp.
Qed.

Lemma onJoysickDown_consistent (dom : layout) (e : PointerEvent)
      (j : JoysickController) :
  exists j' t,
    onJoysickDown dom e j = Some (j', t) /\
    consistent j' /\
    onInputCallback j' = onInputCallback j /\
    reportsTo (onInputCallback j) t.
Proof.
  unfold onJoysickDown.
  match goal with
  | |- context [onJoysickMove e ?s] =>
      rewrite (JoystickFacts.onJoysickMove_pressed e s (boundingClientRect dom)
                 eq_refl eq_refl)
  end.
  cbv zeta. eexists. eexists. split; [reflexivity |].
  split; [| split; [reflexivity | repeat constructor]].
  repeat split; cbn; discriminate.
Qed.

Lemma step_consistent (i : input) (j : JoysickController) :
  consistent j ->
  exists j' t,
    step i j = Some (j', t) /\
    consistent j' /\
    onInputCallback j' = onInputCallback j /\
    reportsTo (onInputCallback j) t.
Proof.
  intros Hj. destruct i as [ev dom e | dom]; cbn [step].
  - rewrite deliver_init.
    destruct (String.eqb "pointerup" ev).
    { eexists. eexists. split; [reflexivity |].
      split; [now apply onJoysickUp_consistent |].
      split; [reflexivity | repeat constructor]. }
    destruct (String.eqb "pointercancel" ev).
    { eexists. eexists. split; [reflexivity |].
      split; [now apply onJoysickUp_consistent |].
      split; [reflexivity | repeat constructor]. }
    destruct (String.eqb "pointerdown" ev).
    { apply onJoysickDown_consistent. }
    destruct (String.eqb "pointermove" ev).
    { now apply onJoysickMove_consistent. }
    exists j, []. split; [reflexivity |].
    split; [exact Hj | split; [reflexivity | constructor]].
  - destruct Hj as (Hr & Ho & Hc).
    eexists. eexists. split; [reflexivity |].
    split; [| split; [reflexivity | constructor]].
    repeat split; cbn; auto. discriminate.
Qed.

(** X16: a joystick built from any options never reads a missing
    rectangle.  After any run of events on its element and of window resizes
    every handler has returned, a rectangle is cached, the opacity is 1 exactly while the joystick is
    held and 0.7 otherwise, the thumb is at the centre whenever it is not
    held, and every report went to the callback the options supplied (the
    constructor's logger where they supplied none). *)
Theorem joystick_run_never_throws :
  forall (options : JoysickControllerOptions) (dom : layout)
         (inputs : list input),
    exists (j : JoysickController) (t : list effect),
      steps inputs (constructor options dom) = Some (j, t) /\
      baseRect j <> None /\
      opacity j = (if isPressed j then "1" else "0.7")%string /\
      (isPressed j = false -> thumbTransform j = Centered) /\
      reportsTo (orDefault (opt_onInputCallback options) DefaultLogger) t.
Proof.
  intros options dom inputs.
  assert (Hgen : forall inputs j,
             consistent j ->
             exists j' t,
               steps inputs j = Some (j', t) /\
               consistent j' /\
               reportsTo (onInputCallback j) t).
  { clear inputs. induction inputs as [| i rest IH]; intros j Hj.
    - exists j, []. split; [reflexivity | split; [exact Hj | constructor]].
    - cbn [steps].
      destruct (step_consistent i j Hj) as (j1 & t1 & Hstep & Hj1 & Hcb & Ht1).
      rewrite Hstep.
      destruct (IH j1 Hj1) as (j2 & t2 & Hsteps & Hj2 & Ht2).
      rewrite Hsteps. exists j2, (t1 ++ t2).
      split; [reflexivity | split; [exact Hj2 |]].
      apply Forall_app. split; [exact Ht1 |]. now rewrite <- Hcb. }
  destruct (Hgen inputs (constructor options dom))
    as (j & t & Hsteps & (Hr & Ho & Hc) & Ht).
  { unfold consistent. cbn.
    split; [discriminate | split; [reflexivity | intros _; reflexivity]]. }
  exists j, t. repeat split; assumption.
Qed.

End JoystickBehaviour.

(** ** D-pad: directions, releases and runs *)

Module DpadBehaviour.
Import Dpad.

(** Beyond the dead zone some test of the chain succeeds, whatever the
    angle. *)
Lemma findDirection_center_iff (dist reg angle : R) :
  findDirection dist reg angle = Center <-> dist <= reg.
Proof.
  split; [| apply DpadFacts.findDirection_dead_zone].
  intros H. destruct (Rle_dec dist reg) as [Hle | Hgt]; [exact Hle |].
  exfalso. revert H. unfold findDirection.
  assert (E0 : Rltb reg dist = true) by (apply Rltb_true; lra). rewrite E0.
  repeat match goal with
         | |- context [Rltb ?a ?b] =>
             let E := fresh "E" in
             destruct (Rltb a b) eqn:E;
             [apply Rltb_true in E | apply Rltb_false in E]
         | |- context [Rleb ?a ?b] =>
             let E := fresh "E" in
             destruct (Rleb a b) eqn:E;
             [apply Rleb_true in E | apply Rleb_false in E]
         end; cbn; try discriminate; intros _; lra.
Qed.



Lemma reads_findDirection (e : PointerEvent) (d : DpadController) (rect : DOMRect) :
  isPressed d = true ->
  baseRect d = Some rect ->
  reads e d (findDirection (centerDistanceOf (displacement rect (rotate d) e))
                           (inputRegisterDistance d)
                           (angleOf (displacement rect (rotate d) e))).
Proof.
  intros Hp Hr.
  destruct (DpadFacts.onDpadMove_direction e d rect Hp Hr)
    as (d' & t & Hmove & Hdir).
  exists d', t. split; assumption.
Qed.

Lemma displacement_pointerAt (rect : DOMRect) (rot x y : R) :
  displacement rect rot (pointerAt rect x y) =
    if Reqb rot 0 then (x, y) else rotateBack rot x y.
Proof.
  unfold displacement, pointerAt. cbn [clientX clientY].
  replace (rect_left rect + rect_width rect / 2 + x
           - (rect_left rect + rect_width rect / 2)) with x by ring.
  replace (rect_top rect + rect_height rect / 2 + y
           - (rect_top rect + rect_height rect / 2)) with y by ring.
  destruct (Reqb rot 0); reflexivity.
Qed.

Lemma degrees_of_PI (k : R) : k * PI * 180 / PI = k * 180.
Proof.
  pose proof PI_RGT_0 as Hpi. field. lra.
Qed.

Lemma angleOf_left (x : R) : 0 < x -> angleOf (- x, 0) = 180.
Proof.
  intros Hx. unfold angleOf, Math_atan2. cbn [fst snd].
  destruct (Rlt_dec 0 (- x)) as [Hn | _]; [lra |].
  destruct (Rlt_dec (- x) 0) as [_ | Hn]; [| lra].
  destruct (Rle_dec 0 (- 0)) as [_ | Hn]; [| lra].
  replace (- 0 / - x) with 0 by (field; lra).
  rewrite atan_0, Rplus_0_l.
  replace (PI * 180 / PI) with (1 * PI * 180 / PI) by (unfold Rdiv; ring).
  rewrite degrees_of_PI. lra.
Qed.

Lemma angleOf_up (y : R) : 0 < y -> angleOf (0, - y) = 90.
Proof.
  intros Hy. unfold angleOf, Math_atan2. cbn [fst snd].
  destruct (Rlt_dec 0 0) as [Hn | _]; [lra |].
  destruct (Rlt_dec 0 (- - y)) as [_ | Hn]; [| lra].
  replace (PI / 2 * 180 / PI) with (/ 2 * PI * 180 / PI) by (unfold Rdiv; ring).
  rewrite degrees_of_PI. lra.
Qed.

Lemma angleOf_down (y : R) : 0 < y -> angleOf (0, y) = -90.
Proof.
  intros Hy. unfold angleOf, Math_atan2. cbn [fst snd].
  destruct (Rlt_dec 0 0) as [Hn | _]; [lra |].
  destruct (Rlt_dec 0 (- y)) as [Hn | _]; [lra |].
  destruct (Rlt_dec (- y) 0) as [_ | Hn]; [| lra].
  replace (- (PI / 2) * 180 / PI) with (- / 2 * PI * 180 / PI)
    by (unfold Rdiv; ring).
  rewrite degrees_of_PI. lra.
Qed.

Lemma centerDistance_axis (x : R) :
  0 <= x ->
  centerDistanceOf (x, 0) = x /\ centerDistanceOf (- x, 0) = x /\
  centerDistanceOf (0, x) = x /\ centerDistanceOf (0, - x) = x.
Proof.
  intros Hx. unfold centerDistanceOf. cbn [fst snd].
  replace (x * x + 0 * 0) with (x * x) by ring.
  replace (- x * - x + 0 * 0) with (x * x) by ring.
  replace (0 * 0 + x * x) with (x * x) by ring.
  replace (0 * 0 + - x * - x) with (x * x) by ring.
  rewrite sqrt_square by exact Hx. repeat split.
Qed.

Lemma findDirection_left (dist reg angle : R) :
  reg < dist -> 157.5 < angle \/ angle <= -157.5 ->
  findDirection dist reg angle = Left.
Proof.
  intros Hd Ha. unfold findDirection.
  assert (E0 : Rltb reg dist = true) by now apply Rltb_true. rewrite E0.
  destruct Ha as [Ha | Ha].
  - assert (E1 : Rleb angle 22.5 = false) by (apply Rleb_false; lra).
    assert (E2 : Rleb angle 67.5 = false) by (apply Rleb_false; lra).
    assert (E3 : Rleb angle 112.5 = false) by (apply Rleb_false; lra).
    assert (E4 : Rleb angle 157.5 = false) by (apply Rleb_false; lra).
    assert (E5 : Rltb 157.5 angle = true) by (apply Rltb_true; lra).
    rewrite E1, E2, E3, E4, E5, !andb_false_r. reflexivity.
  - assert (E1 : Rltb (-22.5) angle = false) by (apply Rltb_false; lra).
    assert (E2 : Rltb 22.5 angle = false) by (apply Rltb_false; lra).
    assert (E3 : Rltb 67.5 angle = false) by (apply Rltb_false; lra).
    assert (E4 : Rltb 112.5 angle = false) by (apply Rltb_false; lra).
    assert (E5 : Rleb angle (-157.5) = true) by (apply Rleb_true; lra).
    rewrite E1, E2, E3, E4, E5, orb_true_r. reflexivity.
Qed.

Lemma findDirection_up (dist reg angle : R) :
  reg < dist -> 67.5 < angle <= 112.5 ->
  findDirection dist reg angle = Up.
Proof.
  intros Hd [Hlo Hhi]. unfold findDirection.
  assert (E0 : Rltb reg dist = true) by now apply Rltb_true. rewrite E0.
  assert (E1 : Rleb angle 22.5 = false) by (apply Rleb_false; lra).
  assert (E2 : Rleb angle 67.5 = false) by (apply Rleb_false; lra).
  assert (E3 : Rltb 67.5 angle = true) by (apply Rltb_true; lra).
  assert (E4 : Rleb angle 112.5 = true) by (apply Rleb_true; lra).
  rewrite E1, E2, E3, E4, !andb_false_r. reflexivity.
Qed.

Lemma findDirection_down (dist reg angle : R) :
  reg < dist -> -112.5 < angle <= -67.5 ->
  findDirection dist reg angle = Down.
Proof.
  intros Hd [Hlo Hhi]. unfold findDirection.
  assert (E0 : Rltb reg dist = true) by now apply Rltb_true. rewrite E0.
  assert (E1 : Rltb (-22.5) angle = false) by (apply Rltb_false; lra).
  assert (E2 : Rltb 22.5 angle = false) by (apply Rltb_false; lra).
  assert (E3 : Rltb 67.5 angle = false) by (apply Rltb_false; lra).
  assert (E4 : Rltb 112.5 angle = false) by (apply Rltb_false; lra).
  assert (E5 : Rltb 157.5 angle = false) by (apply Rltb_false; lra).
  assert (E6 : Rleb angle (-157.5) = false) by (apply Rleb_false; lra).
  assert (E7 : Rleb angle (-112.5) = false) by (apply Rleb_false; lra).
  assert (E8 : Rltb (-112.5) angle = true) by (apply Rltb_true; lra).
  assert (E9 : Rleb angle (-67.5) = true) by (apply Rleb_true; lra).
  rewrite E1, E2, E3, E4, E5, E6, E7, E8, E9, andb_false_r. reflexivity.
Qed.

(** X18: the four arms.  On a pressed, unrotated d-pad a pointer straight
    to the right of the centre, beyond the dead zone, reads [right]; straight
    to the left [left]; straight above it on the screen (a smaller clientY)
    [up]; straight below it [down]. *)
Theorem straight_pointer_reads_its_arm :
  forall (d : DpadController) (rect : DOMRect) (r : R),
    isPressed d = true ->
    baseRect d = Some rect ->
    rotate d = 0 ->
    0 < r ->
    inputRegisterDistance d < r ->
    reads (pointerAt rect r 0) d Right /\
    reads (pointerAt rect (- r) 0) d Left /\
    reads (pointerAt rect 0 (- r)) d Up /\
    reads (pointerAt rect 0 r) d Down.
Proof.
  intros d rect r Hp Hr Hrot Hpos Hfar.
  destruct (centerDistance_axis r (Rlt_le _ _ Hpos)) as (D1 & D2 & D3 & D4).
  assert (Hreads : forall x y dir,
             findDirection (centerDistanceOf (x, y)) (inputRegisterDistance d)
                           (angleOf (x, y)) = dir ->
             reads (pointerAt rect x y) d dir).
  { intros x y dir Hdir.
    pose proof (reads_findDirection (pointerAt rect x y) d rect Hp Hr) as H.
    rewrite Hrot, displacement_pointerAt, Reqb_refl, Hdir in H. exact H. }
  repeat split; apply Hreads.
  - rewrite D1, DpadFacts.angleOf_right by exact Hpos.
    apply DpadFacts.findDirection_right; [exact Hfar | lra].
  - rewrite D2, angleOf_left by exact Hpos.
    apply findDirection_left; [exact Hfar | lra].
  - rewrite D4, angleOf_up by exact Hpos.
    apply findDirection_up; [exact Hfar | lra].
  - rewrite D3, angleOf_down by exact Hpos.
    apply findDirection_down; [exact Hfar | lra].
Qed.

Lemma straight_pointer_reads_its_arm_witness :
  isPressed Samples.heldDpad = true /\
  baseRect Samples.heldDpad = Some Samples.dpadRect /\
  rotate Samples.heldDpad = 0 /\
  0 < 30 /\
  inputRegisterDistance Samples.heldDpad < 30 /\
  reads (pointerAt Samples.dpadRect 0 (- 30)) Samples.heldDpad Up.
Proof.
  assert (Hpos : 0 < 30) by lra.
  assert (Hfar : inputRegisterDistance Samples.heldDpad < 30) by (simpl; lra).
  split; [reflexivity | split; [reflexivity | split; [reflexivity | split]]].
  - exact Hpos.
  - split; [exact Hfar |].
    destruct (straight_pointer_reads_its_arm Samples.heldDpad Samples.dpadRect 30
                eq_refl eq_refl eq_refl Hpos Hfar) as (_ & _ & Hup & _).
    exact Hup.
Defined.




(** X20: the press callback is edge-triggered.  On a pressed d-pad a second
    move to the same position changes nothing and calls nothing, also when
    [keyRepeat] was asked for. *)
Theorem dpad_repeated_move_is_silent :
  forall (e : PointerEvent) (d : DpadController) (rect : DOMRect),
    isPressed d = true ->
    baseRect d = Some rect ->
    exists (d1 : DpadController) (t1 : list effect),
      onDpadMove e d = Some (d1, t1) /\
      onDpadMove e d1 = Some (d1, []).
Proof.
  intros e d rect Hp Hr.
  rewrite (DpadFacts.onDpadMove_pressed e d rect Hp Hr). cbv zeta.
  set (dir := findDirection _ _ _).
  destruct (direction_eqb (currentDirection d) dir) eqn:E.
  - exists d, []. split; [reflexivity |].
    rewrite (DpadFacts.onDpadMove_pressed e d rect Hp Hr). cbv zeta.
    fold dir. now rewrite E.
  - eexists. eexists. split; [reflexivity |].
    match goal with
    | |- onDpadMove e ?s = _ =>
        rewrite (DpadFacts.onDpadMove_pressed e s rect Hp Hr)
    end.
    cbv zeta. cbn [set_direction rotate inputRegisterDistance currentDirection].
    fold dir. now rewrite DpadFacts.direction_eqb_refl.
Qed.

Lemma dpad_repeated_move_is_silent_witness :
  isPressed Samples.heldDpad = true /\
  baseRect Samples.heldDpad = Some Samples.dpadRect /\
  exists (d1 : DpadController) (t1 : list effect),
    onDpadMove Samples.pointerAtEighthTurn Samples.heldDpad = Some (d1, t1) /\
    onDpadMove Samples.pointerAtEighthTurn d1 = Some (d1, []).
Proof.
  split; [reflexivity | split; [reflexivity |]].
  exact (dpad_repeated_move_is_silent Samples.pointerAtEighthTurn
           Samples.heldDpad Samples.dpadRect eq_refl eq_refl).
Defined.

Lemma onDpadUp_release (e : event) (d : DpadController) :
  currentDirection (fst (onDpadUp e d)) = Center /\
  filter isReleasedEffect (snd (onDpadUp e d)) =
    (if direction_eqb (currentDirection d) Center then []
     else [Released (onReleaseCallback d) Center]).
Proof.
  unfold onDpadUp, releaseDirection.
  destruct e as [p | touches changed].
  - destruct (Z.eqb (pointerId p) (pointerId_ d)); cbn;
      destruct (direction_eqb (currentDirection d) Center) eqn:E; cbn;
      (split; [| reflexivity]);
      try reflexivity; now apply DpadFacts.direction_eqb_eq in E.
  - destruct (0 <? List.length changed)%nat; cbn;
      destruct (direction_eqb (currentDirection d) Center) eqn:E; cbn;
      (split; [| reflexivity]);
      try reflexivity; now apply DpadFacts.direction_eqb_eq in E.
Qed.

(** X21: every release recentres.  After [onDpadUp], for a pointer-up of any
    pointer (the one that pressed or another) and for a touch-end with or
    without changed touches, the direction is [center]; [onReleaseCallback]
    was called, once and with [center], exactly when a direction was shown
    before; and a second release calls nothing. *)
Theorem every_release_recentres :
  forall (e e' : event) (d : DpadController),
    currentDirection (fst (onDpadUp e d)) = Center /\
    filter isReleasedEffect (snd (onDpadUp e d)) =
      (if direction_eqb (currentDirection d) Center then []
       else [Released (onReleaseCallback d) Center]) /\
    filter isReleasedEffect (snd (onDpadUp e' (fst (onDpadUp e d)))) = [].
Proof.
  intros e e' d.
  destruct (onDpadUp_release e d) as [Hc Ht].
  split; [exact Hc | split; [exact Ht |]].
  destruct (onDpadUp_release e' (fst (onDpadUp e d))) as [_ Ht'].
  rewrite Ht', Hc. reflexivity.
Qed.

(** What a move leaves alone. *)
Lemma onDpadMove_frame (e : PointerEvent) (d d' : DpadController)
      (t : list effect) :
  onDpadMove e d = Some (d', t) ->
  isPressed d' = isPressed d /\
  baseRect d' = baseRect d /\
  inputRegisterDistance d' = inputRegisterDistance d /\
  centerThreshold d' = centerThreshold d /\
  rotate d' = rotate d /\
  onPressCallback d' = onPressCallback d /\
  onReleaseCallback d' = onReleaseCallback d.
Proof.
  unfold onDpadMove. destruct (isPressed d) eqn:Hp; cbn [negb].
  - destruct (baseRect d) eqn:Hr; [| discriminate].
    destruct (direction_eqb _ _); intros H; inversion H; subst; cbn;
      repeat split; auto.
  - intros H. inversion H. subst. repeat split; auto.
Qed.

(** What a release leaves alone. *)
Lemma onDpadUp_frame (e : event) (d : DpadController) :
  baseRect (fst (onDpadUp e d)) = baseRect d /\
  inputRegisterDistance (fst (onDpadUp e d)) = inputRegisterDistance d /\
  centerThreshold (fst (onDpadUp e d)) = centerThreshold d /\
  rotate (fst (onDpadUp e d)) = rotate d /\
  onPressCallback (fst (onDpadUp e d)) = onPressCallback d /\
  onReleaseCallback (fst (onDpadUp e d)) = onReleaseCallback d.
Proof.
  unfold onDpadUp, releaseDirection. destruct e as [p | touches changed].
  - destruct (Z.eqb (pointerId p) (pointerId_ d)); cbn;
      destruct (direction_eqb _ Center); cbn; repeat split.
  - destruct (0 <? List.length changed)%nat; cbn;
      destruct (direction_eqb _ Center); cbn; repeat split.
Qed.

(** Only the pointer that pressed clears [isPressed]. *)
Lemma onDpadUp_pressed (e : event) (d : DpadController) :
  isPressed (fst (onDpadUp e d)) =
    match e with
    | Pointer p => if Z.eqb (pointerId p) (pointerId_ d) then false
                   else isPressed d
    | Touch _ _ => isPressed d
    end.
Proof.
  unfold onDpadUp, releaseDirection. destruct e as [p | touches changed].
  - destruct (Z.eqb (pointerId p) (pointerId_ d)); cbn;
      destruct (direction_eqb _ Center); reflexivity.
  - destruct (0 <? List.length changed)%nat; cbn;
      destruct (direction_eqb _ Center); reflexivity.
Qed.

(** A press, by pointer or by touch, leaves the d-pad held on the rectangle
    it read. *)
Lemma press_dragging (rect : DOMRect) (p : PointerEvent) (d : DpadController) :
  exists d' t,
    onDpadMove p (updateContainerRectangle rect (set_press true (pointerId p) d))
      = Some (d', t) /\
    dragging rect d' /\
    centerThreshold d' = centerThreshold d /\
    rotate d' = rotate d /\
    onPressCallback d' = onPressCallback d /\
    onReleaseCallback d' = onReleaseCallback d.
Proof.
  set (d1 := updateContainerRectangle rect (set_press true (pointerId p) d)).
  destruct (DpadFacts.onDpadMove_direction p d1 rect eq_refl eq_refl)
    as (d' & t & Hmove & _).
  exists d', t. split; [exact Hmove |].
  destruct (onDpadMove_frame p d1 d' t Hmove)
    as (Hp & Hr & Hreg & Hthr & Hrot & Hcb & Hrel).
  repeat split; try assumption.
  rewrite Hreg, Hthr. reflexivity.
Qed.

(** X22: a touch-end does not let go.  After a touch-start with at least
    one touch and a touch-end, [isPressed] is still set, so a later
    pointer-move beyond the dead zone is read and reported to
    [onPressCallback] as a direction, with no press in between. *)
Theorem touch_end_leaves_dpad_held :
  forall (d : DpadController) (rect : DOMRect) (t0 : PointerEvent)
         (ts cs ts' cs' : list PointerEvent) (e : PointerEvent),
    Rmin (rect_width rect) (rect_height rect) / 2 * centerThreshold d
      < centerDistanceOf (displacement rect (rotate d) e) ->
    exists (d2 d3 : DpadController) (t t3 : list effect) (dir : direction),
      steps [TouchStart rect (t0 :: ts) cs; TouchEnd ts' cs'] d = Some (d2, t) /\
      isPressed d2 = true /\
      currentDirection d2 = Center /\
      step (PointerMove e) d2 = Some (d3, t3) /\
      t3 = [Pressed (onPressCallback d) dir] /\
      currentDirection d3 = dir /\
      dir <> Center.
Proof.
  intros d rect t0 ts cs ts' cs' e Hfar.
  destruct (press_dragging rect t0 d)
    as (d1 & t1 & Hdown & (Hp1 & Hr1 & Hreg1) & Hthr1 & Hrot1 & Hcb1 & _).
  destruct (onDpadUp_frame (Touch ts' cs') d1)
    as (Hr2 & Hreg2 & Hthr2 & Hrot2 & Hcb2 & _).
  pose proof (onDpadUp_pressed (Touch ts' cs') d1) as Hp2. cbn in Hp2.
  destruct (onDpadUp_release (Touch ts' cs') d1) as (Hc2 & _).
  destruct (onDpadUp (Touch ts' cs') d1) as [d2 t2] eqn:Hup.
  cbn [fst] in *.
  assert (Hpressed : isPressed d2 = true) by congruence.
  assert (Hrect : baseRect d2 = Some rect) by congruence.
  pose proof (DpadFacts.onDpadMove_pressed e d2 rect Hpressed Hrect) as Hmove.
  cbv zeta in Hmove. rewrite Hrot2, Hrot1, Hreg2, Hreg1, Hthr1, Hc2 in Hmove.
  set (dir := findDirection _ _ _) in Hmove.
  assert (Hdir : dir <> Center).
  { unfold dir. intros Hcenter. apply findDirection_center_iff in Hcenter. lra. }
  assert (E : direction_eqb Center dir = false).
  { destruct (direction_eqb Center dir) eqn:E; [| reflexivity].
    apply DpadFacts.direction_eqb_eq in E. congruence. }
  rewrite E in Hmove.
  eexists d2, _, _, _, dir. split.
  - cbn [steps step]. cbn [onDpadDown]. rewrite Hdown, Hup. reflexivity.
  - split; [exact Hpressed |]. split; [exact Hc2 |].
    cbn [step]. split; [exact Hmove |].
    split; [now rewrite Hcb2, Hcb1 |]. split; [reflexivity | exact Hdir].
Qed.

Lemma touch_end_leaves_dpad_held_witness :
  Rmin (rect_width Samples.dpadRect) (rect_height Samples.dpadRect) / 2
    * centerThreshold Samples.heldDpad
    < centerDistanceOf (displacement Samples.dpadRect (rotate Samples.heldDpad)
                                     Samples.pointerAtEighthTurn) /\
  exists (d2 : DpadController) (t : list effect),
    steps [TouchStart Samples.dpadRect [Samples.moveTo 50 50] [];
           TouchEnd [] [Samples.moveTo 50 50]] Samples.heldDpad = Some (d2, t) /\
    isPressed d2 = true.
Proof.
  assert (Hfar : Rmin (rect_width Samples.dpadRect) (rect_height Samples.dpadRect)
                 / 2 * centerThreshold Samples.heldDpad
                 < centerDistanceOf
                     (displacement Samples.dpadRect (rotate Samples.heldDpad)
                                   Samples.pointerAtEighthTurn)).
  { cbn [rotate Samples.heldDpad]. rewrite DpadFacts.eighth_turn_distance.
    simpl. rewrite Rmin_left by lra. lra. }
  split; [exact Hfar |].
  destruct (touch_end_leaves_dpad_held Samples.heldDpad Samples.dpadRect
              (Samples.moveTo 50 50) [] [] [] [Samples.moveTo 50 50]
              Samples.pointerAtEighthTurn Hfar)
    as (d2 & _ & t & _ & _ & Hsteps & Hheld & _).
  exists d2, t. split; assumption.
Defined.

(** X23: [keyRepeat] changes nothing.  With the flag set or cleared, every
    input gives the same calls and the same fields (the flag itself apart):
    no handler reads it, and no repeat is ever scheduled. *)
Theorem keyRepeat_is_never_read :
  forall (k : bool) (i : input) (d : DpadController),
    step i (set_keyRepeat k d) =
      match step i d with
      | Some (d', t) => Some (set_keyRepeat k d', t)
      | None => None
      end.
Proof.
  intros k i d.
  assert (Hmove : forall p d,
             onDpadMove p (set_keyRepeat k d) =
               match onDpadMove p d with
               | Some (d', t) => Some (set_keyRepeat k d', t)
               | None => None
               end).
  { clear. intros p d. unfold onDpadMove. cbn.
    destruct (isPressed d); cbn; [| reflexivity].
    destruct (baseRect d); [| reflexivity].
    destruct (direction_eqb _ _); reflexivity. }
  assert (Hup : forall e d,
             onDpadUp e (set_keyRepeat k d) =
               (set_keyRepeat k (fst (onDpadUp e d)), snd (onDpadUp e d))).
  { clear. intros e d. unfold onDpadUp, releaseDirection.
    destruct e as [p | touches changed].
    - cbn [pointerId_ set_keyRepeat].
      destruct (Z.eqb (pointerId p) (pointerId_ d)); cbn;
        destruct (direction_eqb (currentDirection d) Center); reflexivity.
    - destruct (0 <? List.length changed)%nat; cbn;
        destruct (direction_eqb (currentDirection d) Center); reflexivity. }
  destruct i as [rect p | p | p | rect touches changed | touches changed];
    cbn [step].
  - unfold onDpadDown.
    change (updateContainerRectangle rect
              (set_press true (pointerId p) (set_keyRepeat k d)))
      with (set_keyRepeat k (updateContainerRectangle rect
                               (set_press true (pointerId p) d))).
    rewrite Hmove. destruct (onDpadMove p _) as [[d' t] |]; reflexivity.
  - apply Hmove.
  - rewrite Hup. destruct (onDpadUp (Pointer p) d). reflexivity.
  - unfold onDpadDown. destruct touches as [| t0 rest]; [reflexivity |].
    change (updateContainerRectangle rect
              (set_press true (pointerId t0) (set_keyRepeat k d)))
      with (set_keyRepeat k (updateContainerRectangle rect
                               (set_press true (pointerId t0) d))).
    rewrite Hmove. destruct (onDpadMove t0 _) as [[d' t] |]; reflexivity.
  - rewrite Hup. destruct (onDpadUp (Touch touches changed) d). reflexivity.
Qed.

Lemma updateDpadUI_arms (dir : direction) : updateDpadUI dir = arms dir.
Proof. destruct dir; reflexivity. Qed.

(** X24: the arms that light up.  When a move on a pressed d-pad changes
    the direction, the paths filled with the pressed colour are exactly the
    arms the new direction is made of: one for a straight direction, the two
    adjacent ones for a diagonal, none for [center]. *)
Theorem direction_change_lights_its_arms :
  forall (e : PointerEvent) (d : DpadController) (rect : DOMRect),
    isPressed d = true ->
    baseRect d = Some rect ->
    exists (d' : DpadController) (t : list effect),
      onDpadMove e d = Some (d', t) /\
      (currentDirection d' <> currentDirection d ->
       pressedPaths d' = arms (currentDirection d') /\
       t = [Pressed (onPressCallback d) (currentDirection d')]) /\
      (currentDirection d' = currentDirection d -> d' = d /\ t = []).
Proof.
  intros e d rect Hp Hr.
  rewrite (DpadFacts.onDpadMove_pressed e d rect Hp Hr). cbv zeta.
  set (dir := findDirection _ _ _).
  destruct (direction_eqb (currentDirection d) dir) eqn:E.
  - apply DpadFacts.direction_eqb_eq in E.
    exists d, []. split; [reflexivity |]. split.
    + intros H. contradiction H. reflexivity.
    + intros _. split; reflexivity.
  - eexists. eexists. split; [reflexivity |]. cbn. split.
    + intros _. split; [apply updateDpadUI_arms | reflexivity].
    + intros H. rewrite H in E.
      now rewrite DpadFacts.direction_eqb_refl in E.
Qed.

Lemma direction_change_lights_its_arms_witness :
  isPressed Samples.heldDpad = true /\
  baseRect Samples.heldDpad = Some Samples.dpadRect /\
  exists (d' : DpadController) (t : list effect),
    onDpadMove Samples.pointerAtEighthTurn Samples.heldDpad = Some (d', t) /\
    (currentDirection d' <> currentDirection Samples.heldDpad ->
     pressedPaths d' = arms (currentDirection d')).
Proof.
  split; [reflexivity | split; [reflexivity |]].
  destruct (direction_change_lights_its_arms Samples.pointerAtEighthTurn
              Samples.heldDpad Samples.dpadRect eq_refl eq_refl)
    as (d' & t & Hmove & Hchange & _).
  exists d', t. split; [exact Hmove |].
  intros H. apply (Hchange H).
Defined.

Lemma onDpadMove_trace (e : PointerEvent) (d d' : DpadController)
      (t : list effect) :
  onDpadMove e d = Some (d', t) -> pressesGoTo (onPressCallback d) t.
Proof.
  unfold onDpadMove. destruct (isPressed d); cbn [negb].
  - destruct (baseRect d); [| discriminate].
    destruct (direction_eqb _ _); intros H; inversion H; subst;
      repeat constructor.
  - intros H. inversion H. constructor.
Qed.

Lemma onDpadUp_trace (e : event) (d : DpadController) (f : callback) :
  pressesGoTo f (snd (onDpadUp e d)).
Proof.
  unfold onDpadUp, releaseDirection. destruct e as [p | touches changed].
  - destruct (Z.eqb (pointerId p) (pointerId_ d)); cbn;
      destruct (direction_eqb _ Center); cbn; repeat constructor.
  - destruct (0 <? List.length changed)%nat; cbn;
      destruct (direction_eqb _ Center); cbn; repeat constructor.
Qed.

Lemma dragging_armed (rect : DOMRect) (d : DpadController) :
  dragging rect d -> armed d.
Proof.
  intros (Hp & Hr & Hreg). repeat split.
  - intros _. rewrite Hr. discriminate.
  - intros _. exact Hp.
  - intros rect' Hr'. rewrite Hr in Hr'. inversion Hr'. subst. exact Hreg.
Qed.

Lemma onDpadMove_armed (e : PointerEvent) (d : DpadController) :
  armed d ->
  exists d' t,
    onDpadMove e d = Some (d', t) /\
    armed d' /\
    centerThreshold d' = centerThreshold d /\
    onPressCallback d' = onPressCallback d /\
    pressesGoTo (onPressCallback d) t.
Proof.
  intros (Hrect & Hdir & Hreg).
  destruct (isPressed d) eqn:Hp.
  - destruct (baseRect d) as [rect |] eqn:Hr; [| now contradiction Hrect].
    destruct (DpadFacts.onDpadMove_direction e d rect Hp Hr)
      as (d' & t & Hmove & _).
    destruct (onDpadMove_frame e d d' t Hmove)
      as (Hp' & Hr' & Hreg' & Hthr' & _ & Hcb' & _).
    exists d', t. split; [exact Hmove |].
    split; [| split; [exact Hthr' | split; [exact Hcb' |]]].
    + repeat split.
      * intros _. rewrite Hr', Hr. discriminate.
      * intros _. now rewrite Hp'.
      * intros rect' H. rewrite Hreg', Hthr'. apply Hreg. congruence.
    + exact (onDpadMove_trace e d d' t Hmove).
  - exists d, []. unfold onDpadMove. rewrite Hp. cbn.
    split; [reflexivity |].
    split; [| split; [reflexivity | split; [reflexivity | constructor]]].
    split; [| split].
    + intros H. rewrite Hp in H. discriminate.
    + intros H. rewrite Hp. exact (Hdir H).
    + exact Hreg.
Qed.

Lemma onDpadUp_armed (e : event) (d : DpadController) :
  armed d -> armed (fst (onDpadUp e d)).
Proof.
  intros (Hrect & Hdir & Hreg).
  destruct (onDpadUp_frame e d) as (Hr & Hi & Hthr & _).
  pose proof (onDpadUp_pressed e d) as Hp.
  destruct (onDpadUp_release e d) as [Hc _].
  repeat split.
  - intros H. rewrite Hr. apply Hrect. rewrite Hp in H.
    destruct e as [p | ? ?]; [| exact H].
    destruct (Z.eqb (pointerId p) (pointerId_ d)); [discriminate | exact H].
  - intros H. contradiction.
  - intros rect H. rewrite Hi, Hthr. apply Hreg. now rewrite <- Hr.
Qed.

Lemma press_armed (rect : DOMRect) (p : PointerEvent) (d : DpadController) :
  exists d' t,
    onDpadMove p (updateContainerRectangle rect (set_press true (pointerId p) d))
      = Some (d', t) /\
    armed d' /\
    centerThreshold d' = centerThreshold d /\
    onPressCallback d' = onPressCallback d /\
    pressesGoTo (onPressCallback d) t.
Proof.
  destruct (press_dragging rect p d)
    as (d' & t & Hmove & Hdrag & Hthr & _ & Hcb & _).
  exists d', t. split; [exact Hmove |].
  split; [exact (dragging_armed rect d' Hdrag) |].
  split; [exact Hthr | split; [exact Hcb |]].
  exact (onDpadMove_trace p _ d' t Hmove).
Qed.

Lemma step_armed (i : input) (d : DpadController) :
  armed d ->
  exists d' t,
    step i d = Some (d', t) /\
    armed d' /\
    centerThreshold d' = centerThreshold d /\
    onPressCallback d' = onPressCallback d /\
    pressesGoTo (onPressCallback d) t.
Proof.
  intros Hd.
  destruct i as [rect p | p | p | rect touches changed | touches changed];
    cbn [step].
  - unfold onDpadDown.
    destruct (press_armed rect p d) as (d' & t & Hmove & H1 & H2 & H3 & H4).
    rewrite Hmove. exists d', (SetPointerCapture (pointerId p) :: t).
    split; [reflexivity |].
    split; [exact H1 | split; [exact H2 | split; [exact H3 |]]].
    constructor; [exact I | exact H4].
  - now apply onDpadMove_armed.
  - destruct (onDpadUp_frame (Pointer p) d) as (_ & _ & Hthr & _ & Hcb & _).
    exists (fst (onDpadUp (Pointer p) d)), (snd (onDpadUp (Pointer p) d)).
    split; [now rewrite <- surjective_pairing |].
    split; [now apply onDpadUp_armed |].
    split; [exact Hthr | split; [exact Hcb | apply onDpadUp_trace]].
  - unfold onDpadDown. destruct touches as [| t0 rest].
    + exists d, [PreventDefault]. split; [reflexivity |].
      split; [exact Hd | split; [reflexivity | split; [reflexivity |]]].
      repeat constructor.
    + destruct (press_armed rect t0 d) as (d' & t & Hmove & H1 & H2 & H3 & H4).
      rewrite Hmove. exists d', (PreventDefault :: t).
      split; [reflexivity |].
      split; [exact H1 | split; [exact H2 | split; [exact H3 |]]].
      constructor; [exact I | exact H4].
  - destruct (onDpadUp_frame (Touch touches changed) d)
      as (_ & _ & Hthr & _ & Hcb & _).
    pose proof (onDpadUp_armed (Touch touches changed) d Hd) as Ha.
    pose proof (onDpadUp_trace (Touch touches changed) d (onPressCallback d))
      as Ht.
    destruct (onDpadUp (Touch touches changed) d) as [d1 t1].
    cbn [fst snd] in *.
    exists d1, (PreventDefault :: t1). split; [reflexivity |].
    split; [exact Ha | split; [exact Hthr | split; [exact Hcb |]]].
    constructor; [exact I | exact Ht].
Qed.

(** X25: a d-pad built from any options never reads a missing rectangle.
    After any run of pointer and touch events every handler has returned
    (none has met an undefined [baseRect]); a held d-pad always
    has a rectangle cached, although the constructor caches none; a direction
    other than [center] is shown only while the d-pad is held; the dead zone
    is min(width, height) / 2 * centerThreshold of the cached rectangle; and
    every press report went to the callback the options supplied (the
    constructor's logger where they supplied none). *)
Theorem dpad_run_never_throws :
  forall (options : DpadOptions) (inputs : list input),
    exists (d : DpadController) (t : list effect),
      steps inputs (constructor options) = Some (d, t) /\
      (isPressed d = true -> baseRect d <> None) /\
      (currentDirection d <> Center -> isPressed d = true) /\
      (forall rect,
          baseRect d = Some rect ->
          inputRegisterDistance d =
            Rmin (rect_width rect) (rect_height rect) / 2
            * orDefault (opt_centerRadiusThreshold options) 0.25) /\
      pressesGoTo (orDefault (opt_onPressCallback options) DefaultLogger) t.
Proof.
  intros options inputs.
  assert (Hgen : forall inputs d,
             armed d ->
             exists d' t,
               steps inputs d = Some (d', t) /\
               armed d' /\
               centerThreshold d' = centerThreshold d /\
               pressesGoTo (onPressCallback d) t).
  { clear inputs. induction inputs as [| i rest IH]; intros d Hd.
    - exists d, [].
      split; [reflexivity | split; [exact Hd | split; [reflexivity |]]].
      constructor.
    - cbn [steps].
      destruct (step_armed i d Hd) as (d1 & t1 & Hstep & Hd1 & Hthr1 & Hcb1 & Ht1).
      rewrite Hstep.
      destruct (IH d1 Hd1) as (d2 & t2 & Hsteps & Hd2 & Hthr2 & Ht2).
      rewrite Hsteps. exists d2, (t1 ++ t2).
      split; [reflexivity | split; [exact Hd2 |]].
      split; [congruence |].
      apply Forall_app. split; [exact Ht1 |]. now rewrite <- Hcb1. }
  destruct (Hgen inputs (constructor options))
    as (d & t & Hsteps & (H1 & H2 & H3) & Hthr & Ht).
  { unfold armed. cbn. split; [discriminate | split; [| discriminate]].
    intros H. contradiction H. reflexivity. }
  exists d, t. split; [exact Hsteps |].
  split; [exact H1 | split; [exact H2 | split; [| exact Ht]]].
  intros rect Hr. rewrite (H3 rect Hr), Hthr. reflexivity.
Qed.

Lemma onDpadMove_pointerId (e : PointerEvent) (d d' : DpadController)
      (t : list effect) :
  onDpadMove e d = Some (d', t) -> pointerId_ d' = pointerId_ d.
Proof.
  unfold onDpadMove. destruct (isPressed d); cbn [negb].
  - destruct (baseRect d); [| discriminate].
    destruct (direction_eqb _ _); intros H; inversion H; reflexivity.
  - intros H. inversion H. reflexivity.
Qed.

(** X26: a second pointer takes the d-pad over.  A pointer-down while
    another pointer holds the d-pad overwrites the tracked pointer id and the
    cached rectangle; the release of the first pointer then recentres the
    d-pad but neither clears [isPressed] nor forgets the second pointer. *)
Theorem second_pointer_takes_over :
  forall (d : DpadController) (rect1 rect2 : DOMRect) (p1 p2 : PointerEvent),
    pointerId p1 <> pointerId p2 ->
    exists (d3 : DpadController) (t : list effect),
      steps [PointerDown rect1 p1; PointerDown rect2 p2; PointerUp p1] d
        = Some (d3, t) /\
      isPressed d3 = true /\
      pointerId_ d3 = pointerId p2 /\
      baseRect d3 = Some rect2 /\
      currentDirection d3 = Center.
Proof.
  intros d rect1 rect2 p1 p2 Hids.
  destruct (press_dragging rect1 p1 d) as (d1 & t1 & Hdown1 & _).
  destruct (press_dragging rect2 p2 d1)
    as (d2 & t2 & Hdown2 & (Hp2 & Hr2 & _) & _).
  pose proof (onDpadMove_pointerId p2 _ d2 t2 Hdown2) as Hid2. cbn in Hid2.
  destruct (onDpadUp_frame (Pointer p1) d2) as (Hr3 & _).
  pose proof (onDpadUp_pressed (Pointer p1) d2) as Hp3.
  cbv beta iota in Hp3.
  destruct (onDpadUp_release (Pointer p1) d2) as (Hc3 & _).
  assert (Hne : Z.eqb (pointerId p1) (pointerId_ d2) = false).
  { apply Z.eqb_neq. now rewrite Hid2. }
  rewrite Hne in Hp3.
  assert (Hid3 : pointerId_ (fst (onDpadUp (Pointer p1) d2)) = pointerId_ d2).
  { unfold onDpadUp, releaseDirection. rewrite Hne.
    destruct (direction_eqb _ Center); reflexivity. }
  destruct (onDpadUp (Pointer p1) d2) as [d3 t3] eqn:Hup. cbn [fst] in *.
  exists d3. eexists. split.
  - cbn [steps step]. unfold onDpadDown. rewrite Hdown1, Hdown2, Hup.
    reflexivity.
  - repeat split; congruence.
Qed.

Lemma second_pointer_takes_over_witness :
  pointerId (mkPointer 1 100 50) <> pointerId (mkPointer 2 50 100) /\
  exists (d3 : DpadController) (t : list effect),
    steps [PointerDown Samples.dpadRect (mkPointer 1 100 50);
           PointerDown Samples.dpadRect (mkPointer 2 50 100);
           PointerUp (mkPointer 1 100 50)]
          (constructor Samples.dpadOptions) = Some (d3, t) /\
    isPressed d3 = true /\
    pointerId_ d3 = 2%Z.
Proof.
  assert (Hids : pointerId (mkPointer 1 100 50) <> pointerId (mkPointer 2 50 100))
    by (cbn; discriminate).
  split; [exact Hids |].
  destruct (second_pointer_takes_over (constructor Samples.dpadOptions)
              Samples.dpadRect Samples.dpadRect
              (mkPointer 1 100 50) (mkPointer 2 50 100) Hids)
    as (d3 & t & Hsteps & Hheld & Hid & _).
  exists d3, t. repeat split; assumption.
Defined.

End DpadBehaviour.
